(** * placetime-fetcher: feed polling and image backfill (fetcher.go)

    A shallow embedding of [fetcher.go].  Strings are Go strings (byte
    sequences), Go's [int]/[int64] values are [Z], a nil-able slice is an
    [option (list _)] ([None] is the nil slice, [Some []] the empty non-nil
    one), a Go [(value, error)] pair keeps both components as options where
    the code inspects them separately.  Calls into the collaborators (HTTP,
    feed parser, image picker, cropper, file system, Redis store) are recorded
    in an event trace. *)

From Stdlib Require Import ZArith List String Ascii Lia Bool Permutation.
Import ListNotations.

Open Scope string_scope.
Open Scope list_scope.
Open Scope Z_scope.

(** ** crypto/md5 and the [%x] verb

    [md5.New] / [io.WriteString] / [Sum(nil)] compute the RFC 1321 digest of
    the bytes of the string; 32-bit words are [Z] with the wrap-around
    written out. *)
Module MD5.

Definition u32 (x : Z) : Z := x mod 2 ^ 32.

Definition not32 (x : Z) : Z := Z.lxor x 4294967295.

Definition rotl (x c : Z) : Z :=
  u32 (Z.lor (Z.shiftl x c) (Z.shiftr x (32 - c))).

Definition shifts : list Z :=
  [ 7; 12; 17; 22; 7; 12; 17; 22; 7; 12; 17; 22; 7; 12; 17; 22;
    5; 9; 14; 20; 5; 9; 14; 20; 5; 9; 14; 20; 5; 9; 14; 20;
    4; 11; 16; 23; 4; 11; 16; 23; 4; 11; 16; 23; 4; 11; 16; 23;
    6; 10; 15; 21; 6; 10; 15; 21; 6; 10; 15; 21; 6; 10; 15; 21 ].

Definition sines : list Z :=
  [ 3614090360; 3905402710; 606105819; 3250441966;
    4118548399; 1200080426; 2821735955; 4249261313;
    1770035416; 2336552879; 4294925233; 2304563134;
    1804603682; 4254626195; 2792965006; 1236535329;
    4129170786; 3225465664; 643717713; 3921069994;
    3593408605; 38016083; 3634488961; 3889429448;
    568446438; 3275163606; 4107603335; 1163531501;
    2850285829; 4243563512; 1735328473; 2368359562;
    4294588738; 2272392833; 1839030562; 4259657740;
    2763975236; 1272893353; 4139469664; 3200236656;
    681279174; 3936430074; 3572445317; 76029189;
    3654602809; 3873151461; 530742520; 3299628645;
    4096336452; 1126891415; 2878612391; 4237533241;
    1700485571; 2399980690; 4293915773; 2240044497;
    1873313359; 4264355552; 2734768916; 1309151649;
    4149444226; 3174756917; 718787259; 3951481745 ].

Record digest := { dA : Z; dB : Z; dC : Z; dD : Z }.

Definition init : digest :=
  {| dA := 1732584193; dB := 4023233417; dC := 2562383102; dD := 271733878 |}.

Definition at_ (l : list Z) (i : Z) : Z := nth (Z.to_nat i) l 0.

(** One of the 64 operations of a block; [m] holds the block's 16 words. *)
Definition op (m : list Z) (s : digest) (i : Z) : digest :=
  let b := dB s in
  let c := dC s in
  let d := dD s in
  let '(f, g) :=
    if i <? 16 then (Z.lor (Z.land b c) (Z.land (not32 b) d), i)
    else if i <? 32 then (Z.lor (Z.land d b) (Z.land (not32 d) c), (5 * i + 1) mod 16)
    else if i <? 48 then (Z.lxor (Z.lxor b c) d, (3 * i + 5) mod 16)
    else (Z.lxor c (Z.lor b (not32 d)), (7 * i) mod 16) in
  let t := u32 (f + dA s + at_ sines i + at_ m g) in
  {| dA := d; dB := u32 (b + rotl t (at_ shifts i)); dC := b; dD := c |}.

Fixpoint words (bs : list Z) : list Z :=
  match bs with
  | b0 :: b1 :: b2 :: b3 :: rest =>
      (b0 + 256 * b1 + 65536 * b2 + 16777216 * b3) :: words rest
  | _ => []
  end.

Definition block (s : digest) (bs : list Z) : digest :=
  let r := fold_left (op (words bs)) (map Z.of_nat (seq 0 64)) s in
  {| dA := u32 (dA s + dA r); dB := u32 (dB s + dB r);
     dC := u32 (dC s + dC r); dD := u32 (dD s + dD r) |}.

Fixpoint blocks (fuel : nat) (s : digest) (bs : list Z) : digest :=
  match fuel, bs with
  | S fuel', _ :: _ => blocks fuel' (block s (firstn 64 bs)) (skipn 64 bs)
  | _, _ => s
  end.

Definition le_bytes (n : nat) (w : Z) : list Z :=
  map (fun k => (w / 256 ^ Z.of_nat k) mod 256) (seq 0 n).

Definition pad (bs : list Z) : list Z :=
  let len := Z.of_nat (List.length bs) in
  let zeros := Z.to_nat ((55 - len) mod 64) in
  bs ++ [128] ++ repeat 0 zeros ++ le_bytes 8 ((8 * len) mod 2 ^ 64).

(** The 16 bytes of [Sum]. *)
Definition Sum (bs : list Z) : list Z :=
  let p := pad bs in
  let s := blocks (List.length p) init p in
  le_bytes 4 (dA s) ++ le_bytes 4 (dB s) ++ le_bytes 4 (dC s) ++ le_bytes 4 (dD s).

End MD5.

(** The bytes of a Go string. *)
Definition bytes (s : string) : list Z :=
  map (fun c => Z.of_N (N_of_ascii c)) (list_ascii_of_string s).

Definition hexdigits : list ascii := list_ascii_of_string "0123456789abcdef".

Definition hexdigit (n : Z) : ascii := nth (Z.to_nat n) hexdigits "0"%char.

(** [fmt.Sprintf("%x", b)] on a byte slice: two lower-case digits per byte. *)
Fixpoint Sprintf_x (bs : list Z) : string :=
  match bs with
  | [] => ""
  | b :: rest => String (hexdigit (b / 16)) (String (hexdigit (b mod 16)) (Sprintf_x rest))
  end.

(** The three lines of [itemsFromFeed] that derive an entry's id. *)
Definition contentId (id : string) : string := Sprintf_x (MD5.Sum (bytes id)).

(** ** Data model *)

(** A Go [error], identified by its message. *)
Definition error := string.

(** [time.Time], as far as the fetcher uses it. *)
Record Time := mkTime { sec : Z; nsec : Z }.

(** [t.Unix()] *)
Definition Time_Unix (t : Time) : Z := sec t.

(** [time.Unix(sec, nsec)], for a nanosecond part already in range. *)
Definition time_Unix (s n : Z) : Time := mkTime s n.

(** [time.Minute], a [Duration] in nanoseconds. *)
Definition Minute : Z := 60 * 1000000000.

(** [datastore.Profile] *)
Module Profile.
Record t := mk { Pid : string; FeedUrl : string; FollowerCount : Z }.
End Profile.

(** An element of the slice returned by [Followers]. *)
Module Follower.
Record t := mk { Pid : string }.
End Follower.

(** [datastore.Item] *)
Module Item.
Record t := mk
  { Id : string; Pid : string; Event : Z; Text : string; Link : string; Image : string }.

(** [item.Image = filename] *)
Definition set_Image (filename : string) (item : t) : t :=
  mk (Id item) (Pid item) (Event item) (Text item) (Link item) filename.
End Item.

(** [feedparser.FeedItem] and [feedparser.Feed] *)
Module FeedItem.
Record t := mk
  { Id : string; Title : string; Link : string; Image : string; When : Time }.
End FeedItem.

Module Feed.
Record t := mk { Items : list FeedItem.t }.
End Feed.

(** [http.Response] *)
Module Response.
Record t := mk { Status : string; Body : string }.
End Response.

(** What [http.Get] returns.  net/http guarantees a non-nil response when the
    error is nil; with an error the response is nil, except after a failed
    redirect check. *)
Inductive GetResult :=
| GetOk (resp : Response.t)
| GetErr (resp : option Response.t) (err : error).

Definition get_resp (r : GetResult) : option Response.t :=
  match r with GetOk resp => Some resp | GetErr resp _ => resp end.

Definition get_err (r : GetResult) : option error :=
  match r with GetOk _ => None | GetErr _ err => Some err end.

(** [*os.File] and [os.FileInfo] *)
Record File := mkFile { Name : string }.
Record FileInfo := mkFileInfo { IsDir : bool }.

Definition O_WRONLY : Z := 1.
Definition O_CREATE : Z := 64.

(** The package-level variables set by the flags. *)
Record Flags := mkFlags
  { imgDir : string; feedInterval : Z; runOnce : bool; feedurl : string }.

(** Their values when no flag is given. *)
Definition default_flags : Flags :=
  mkFlags "/var/opt/timescroll/img" 30 false "".

Module ProfileItemData.
Record t := mk
  { Profile : Profile.t; Items : option (list Item.t); Error : option error }.
End ProfileItemData.

Module ItemImageData.
Record t := mk { Item : Item.t; Error : option error }.
End ItemImageData.

(** ** itemsFromFeed *)

Definition itemsFromFeed (pid : string) (feed : option Feed.t) : list Item.t :=
  let items := [] in
  match feed with
  | Some feed =>
      fold_left
        (fun items item =>
           let id := contentId (FeedItem.Id item) in
           items ++ [Item.mk id pid (Time_Unix (FeedItem.When item)) (FeedItem.Title item)
                             (FeedItem.Link item) (FeedItem.Image item)])
        (Feed.Items feed) items
  | None => items
  end.

(** ** The collaborators

    Everything the fetcher calls outside its own file and the Go standard
    library's pure functions: what each call answers is a parameter.  The
    store is the Redis database behind every [datastore.NewRedisStore()]
    connection; [Followers] and [FeedDrivenProfiles] are its listing queries,
    the other operations may change it.  Each store method also returns an
    error. *)
Class Externals := {
  Image : Type;
  Store : Type;
  http_Get : string -> GetResult;
  feedparser_NewFeed : string -> option Feed.t * option error;
  imgpick_PickImage : string -> option Image * option error;
  salience_Crop : Image -> Z -> Z -> Image;
  path_Join : string -> string -> string;
  os_OpenFile : string -> Z -> Z -> File + error;
  png_Encode : File -> Image -> option error;
  os_Open : string -> File + error;
  File_Stat : File -> FileInfo + error;
  store_FeedDrivenProfiles : Store -> list Profile.t * option error;
  store_GrabItemsNeedingImages : Store -> Z -> Store * (list Item.t * option error);
  store_Followers : Store -> string -> Z -> Z -> list Follower.t * option error;
  store_Unfollow : Store -> string -> string -> Store * option error;
  store_Follow : Store -> string -> string -> Store * option error;
  store_AddItem :
    Store -> string -> Time -> string -> string -> string -> string -> Store * option error;
  store_UpdateItem : Store -> Item.t -> Store * option error
}.

(** ** A stand-in for the collaborators

    An in-memory store and canned answers for the network and the file
    system, to run the fetcher on concrete inputs. *)
Module Demo.

Record store := mkStore
  { profiles : list Profile.t;
    needing : list Item.t;
    edges : list (string * string);
    items : list Item.t;
    online : bool }.

Definition followers_of (pid : string) (count : Z) (s : store) : list Follower.t :=
  firstn (Z.to_nat count)
    (map (fun e => Follower.mk (fst e)) (filter (fun e => (snd e =? pid)%string) (edges s))).

Definition unfollow (pid followpid : string) (s : store) : store :=
  mkStore (profiles s) (needing s)
    (filter (fun e => negb ((fst e =? pid)%string && (snd e =? followpid)%string)) (edges s))
    (items s) (online s).

Definition follow (pid followpid : string) (s : store) : store :=
  mkStore (profiles s) (needing s) ((pid, followpid) :: edges (unfollow pid followpid s))
    (items s) (online s).

Definition put (item : Item.t) (s : store) : store :=
  mkStore (profiles s) (needing s) (edges s)
    (item :: filter (fun x => negb (Item.Id x =? Item.Id item)%string) (items s))
    (online s).

Definition grab (max : Z) (s : store) : store :=
  mkStore (profiles s) (skipn (Z.to_nat max) (needing s)) (edges s) (items s) (online s).

Definition get (url : string) : GetResult :=
  if (url =? "http://feeds.example/news")%string then
    GetOk (Response.mk "200 OK" "<rss>a1 a2</rss>")
  else if (url =? "http://feeds.example/cut")%string then
    GetOk (Response.mk "200 OK" "<rss>a1")
  else if (url =? "http://feeds.example/junk")%string then
    GetOk (Response.mk "200 OK" "junk")
  else GetErr None "dial tcp: connection refused".

Definition a1 : FeedItem.t := FeedItem.mk "a1" "First" "http://site.example/a1" "" (mkTime 1000 0).
Definition a2 : FeedItem.t := FeedItem.mk "a2" "Second" "http://site.example/a2" "" (mkTime 2000 0).

Definition parse (body : string) : option Feed.t * option error :=
  if (body =? "<rss>a1 a2</rss>")%string then (Some (Feed.mk [a1; a2]), None)
  else if (body =? "<rss>a1")%string then (None, Some "unexpected EOF")
  else (None, Some "no feed found").

Definition pick (link : string) : option (Z * Z) * option error :=
  if (link =? "http://site.example/a1")%string then (Some (800, 600), None)
  else if (link =? "http://site.example/a2")%string then (None, None)
  else (None, Some "dial tcp: connection refused").

Definition open_file (name : string) (flag perm : Z) : File + error :=
  if prefix "/srv/img/" name then inl (mkFile name) else inr "permission denied".

Definition open (name : string) : File + error :=
  if (name =? "/nowhere")%string then inr "no such file or directory"
  else inl (mkFile name).

Definition stat (f : File) : FileInfo + error :=
  if (Name f =? "/dev/broken")%string then inr "input/output error"
  else inl (mkFileInfo (negb (Name f =? "/etc/hostname")%string)).

Definition ext : Externals :=
  {| Image := Z * Z;
     Store := store;
     http_Get := get;
     feedparser_NewFeed := parse;
     imgpick_PickImage := pick;
     salience_Crop := fun _ w h => (w, h);
     path_Join := fun dir name => (dir ++ "/" ++ name)%string;
     os_OpenFile := open_file;
     png_Encode := fun _ _ => None;
     os_Open := open;
     File_Stat := stat;
     store_FeedDrivenProfiles := fun s => (profiles s, None);
     store_GrabItemsNeedingImages :=
       fun s max => (grab max s, (firstn (Z.to_nat max) (needing s), None));
     store_Followers :=
       fun s pid count start =>
         if online s then (followers_of pid count s, None)
         else ([], Some "redis: connection refused");
     store_Unfollow := fun s pid followpid => (unfollow pid followpid s, None);
     store_Follow := fun s pid followpid => (follow pid followpid s, None);
     store_AddItem :=
       fun s pid ets text link image itemid =>
         (put (Item.mk itemid pid (Time_Unix ets) text link image) s, None);
     store_UpdateItem := fun s item => (put item s, None) |}.

End Demo.

(** ** The worker pool

    [n] goroutines each loop over the job channel: take a job, work on it,
    send the result.  The job channel is filled and closed by the
    coordinator, the result channel has room for every result, so a send
    never blocks and the coordinator receives the results in the order they
    were sent.  A schedule names, move after move, the worker that runs
    next. *)
Section Pool.

Context {J R : Type}.
Variable work : nat -> J -> R.

Record pool := mkPool
  { queue : list J; slots : list (option J); results : list R }.

Definition set_slot (w : nat) (v : option J) (sl : list (option J)) : list (option J) :=
  firstn w sl ++ v :: skipn (S w) sl.

(** Worker [w] runs: a busy worker sends its result, an idle one takes the
    next job, or returns when the closed channel is empty. *)
Definition move (p : pool) (w : nat) : pool :=
  match nth_error (slots p) w with
  | Some (Some j) => mkPool (queue p) (set_slot w None (slots p)) (results p ++ [work w j])
  | Some None =>
      match queue p with
      | j :: q => mkPool q (set_slot w (Some j) (slots p)) (results p)
      | [] => p
      end
  | None => p
  end.

Definition start (n : nat) (jobs : list J) : pool := mkPool jobs (repeat None n) [].

Definition busy (sl : list (option J)) : list J :=
  flat_map (fun s => match s with Some j => [j] | None => [] end) sl.

(** What is sent, in progress or queued, when a job's result is [f] of it
    whoever works on it. *)
Definition account (f : J -> R) (p : pool) : list R :=
  results p ++ map f (busy (slots p)) ++ map f (queue p).

(** The results of the jobs in progress, by worker, from worker [w] on. *)
Fixpoint finish (w : nat) (sl : list (option J)) : list R :=
  match sl with
  | [] => []
  | Some j :: rest => work w j :: finish (S w) rest
  | None :: rest => finish (S w) rest
  end.

(** The workers still busy, from worker [w] on. *)
Fixpoint busy_workers (w : nat) (sl : list (option J)) : list nat :=
  match sl with
  | [] => []
  | Some _ :: rest => w :: busy_workers (S w) rest
  | None :: rest => busy_workers (S w) rest
  end.

(** The moves that end a run: each busy worker sends, then the first worker
    takes and sends until the queue is empty. *)
Definition completion (p : pool) : list nat :=
  busy_workers 0 (slots p) ++ repeat 0%nat (2 * List.length (queue p)).

(** The results in the order the coordinator receives them: those sent
    during the scheduled moves; then the workers still busy send theirs, and
    the first worker goes through what is left of the queue. *)
Definition arrival (n : nat) (sched : list nat) (jobs : list J) : list R :=
  let p := fold_left move sched (start n jobs) in
  results p ++ finish 0 (slots p) ++ map (work 0) (queue p).

End Pool.

Section Fetcher.

Context `{Ext : Externals}.

(** ** Events and programs *)

(** An argument of a [Printf] call. *)
Inductive Arg :=
| AStr (s : string)
| AInt (n : Z)
| AErr (e : option error).

(** The calls a goroutine makes, in the order it makes them. *)
Inductive Event :=
| EvLog (format : string) (args : list Arg)
| EvPrint (format : string) (args : list Arg)
| EvHttpGet (url : string)
| EvBodyClose
| EvNewFeed (body : string)
| EvPickImage (link : string)
| EvCrop (img : Image) (width height : Z)
| EvOpenFile (name : string) (flag perm : Z)
| EvPngEncode (f : File) (img : Image)
| EvOpen (name : string)
| EvStat (f : File)
| EvFileClose (f : File)
| EvNewRedisStore
| EvStoreClose
| EvFeedDrivenProfiles
| EvGrabItemsNeedingImages (max : Z)
| EvFollowers (pid : string) (count start : Z)
| EvUnfollow (pid followpid : string)
| EvFollow (pid followpid : string)
| EvAddItem (pid : string) (ets : Time) (text link image itemid : string)
| EvUpdateItem (item : Item.t)
| EvGosched
| EvTick (d : Z)
| EvTicked.

(** How a run of the main goroutine stands: the function returned, the
    goroutine panicked, the process called [os.Exit], or the goroutine waits
    for the next tick. *)
Inductive Outcome (A : Type) : Type :=
| Returned (a : A)
| Panicked (msg : string)
| Exited (code : Z)
| Waiting.

Arguments Returned {A} a.
Arguments Panicked {A} msg.
Arguments Exited {A} code.
Arguments Waiting {A}.

Record Run (A : Type) : Type := mkRun
  { trace : list Event; final : Store; outcome : Outcome A }.

Arguments mkRun {A} trace final outcome.
Arguments trace {A} r.
Arguments final {A} r.
Arguments outcome {A} r.

(** A program of the main goroutine: from the state of the store to the
    calls made, the state left and the outcome. *)
Definition Prog (A : Type) : Type := Store -> Run A.

Definition ret {A} (a : A) : Prog A := fun st => mkRun [] st (Returned a).

Definition bind {A B} (m : Prog A) (k : A -> Prog B) : Prog B :=
  fun st =>
    let r := m st in
    match outcome r with
    | Returned a =>
        let r' := k a (final r) in
        mkRun (trace r ++ trace r') (final r') (outcome r')
    | Panicked msg => mkRun (trace r) (final r) (Panicked msg)
    | Exited code => mkRun (trace r) (final r) (Exited code)
    | Waiting => mkRun (trace r) (final r) Waiting
    end.

Notation "x <- m ;; k" := (bind m (fun x => k))
  (at level 61, m at next level, right associativity).
Notation "m ;; k" := (bind m (fun _ => k))
  (at level 61, right associativity).

Definition ev (e : Event) : Prog unit := fun st => mkRun [e] st (Returned tt).

Definition log (format : string) (args : list Arg) : Prog unit := ev (EvLog format args).

Definition print (format : string) (args : list Arg) : Prog unit := ev (EvPrint format args).

Definition panic {A} (msg : string) : Prog A := fun st => mkRun [] st (Panicked msg).

(** [os.Exit(code)] *)
Definition exit {A} (code : Z) : Prog A := fun st => mkRun [] st (Exited code).

(** Blocked on a channel nobody sends on any more in this run. *)
Definition wait {A} : Prog A := fun st => mkRun [] st Waiting.

(** A call of a store method that may change the store. *)
Definition call {A} (e : Event) (f : Store -> Store * A) : Prog A :=
  fun st => mkRun [e] (fst (f st)) (Returned (snd (f st))).

(** A call of a store method that only reads. *)
Definition query {A} (e : Event) (f : Store -> A) : Prog A :=
  fun st => mkRun [e] st (Returned (f st)).

(** [for _, x := range l { body }] *)
Fixpoint for_range {A} (l : list A) (body : A -> Prog unit) : Prog unit :=
  match l with
  | [] => ret tt
  | x :: rest => body x ;; for_range rest body
  end.

Definition nil_dereference : string :=
  "runtime error: invalid memory address or nil pointer dereference".

(** The exit status of the process, once its main goroutine is no longer
    running: 0 after [main] returns, the argument of [os.Exit], 2 after a
    panic nobody recovers. *)
Definition exit_status {A} (o : Outcome A) : option Z :=
  match o with
  | Returned _ => Some 0
  | Panicked _ => Some 2
  | Exited code => Some code
  | Waiting => None
  end.

(** ** The workers: one pass of the loop body, with the calls it makes

    The worker's number only shows in its log lines.  The
    [defer resp.Body.Close()] of [feedWorker] sits in the loop, so it runs
    when the worker returns, after its last job. *)

Definition feedWorker (id : Z) (p : Profile.t) : list Event * ProfileItemData.t :=
  let calls :=
    [EvLog "Feed worker %d processing feed %s" [AInt id; AStr (Profile.FeedUrl p)];
     EvHttpGet (Profile.FeedUrl p)] in
  match http_Get (Profile.FeedUrl p) with
  | GetErr _ err =>
      (calls ++ [EvLog "Feed worker %d got http error  %s" [AInt id; AStr err]],
       ProfileItemData.mk p None (Some err))
  | GetOk resp =>
      let '(feed, err) := feedparser_NewFeed (Response.Body resp) in
      (calls ++ [EvNewFeed (Response.Body resp)],
       ProfileItemData.mk p (Some (itemsFromFeed (Profile.Pid p) feed)) err)
  end.

Definition imageWorker (cfg : Flags) (id : Z) (item : Item.t)
  : list Event * ItemImageData.t :=
  let calls :=
    [EvLog "Image worker %d processing item %s" [AInt id; AStr (Item.Id item)];
     EvPickImage (Item.Link item)] in
  match imgpick_PickImage (Item.Link item) with
  | (Some img, None) =>
      let imgOut := salience_Crop img 460 160 in
      let filename := (Item.Id item ++ ".png")%string in
      let foutName := path_Join (imgDir cfg) filename in
      let calls :=
        calls ++ [EvCrop img 460 160;
                  EvOpenFile foutName (Z.lor O_CREATE O_WRONLY) 438] in
      match os_OpenFile foutName (Z.lor O_CREATE O_WRONLY) 438 with
      | inr err => (calls, ItemImageData.mk item (Some err))
      | inl fout =>
          let calls := calls ++ [EvPngEncode fout imgOut] in
          match png_Encode fout imgOut with
          | Some err => (calls, ItemImageData.mk item (Some err))
          | None => (calls, ItemImageData.mk (Item.set_Image filename item) None)
          end
      end
  | (_, err) => (calls, ItemImageData.mk item err)
  end.

(** ** updateProfileItemData *)

Definition updateProfileItemData (data : ProfileItemData.t) : Prog (option error) :=
  match ProfileItemData.Items data with
  | Some items =>
      ev EvNewRedisStore ;;
      let p := ProfileItemData.Profile data in
      r <- query (EvFollowers (Profile.Pid p) (Profile.FollowerCount p) 0)
             (fun s => store_Followers s (Profile.Pid p) (Profile.FollowerCount p) 0) ;;
      let '(followers, err) := r in
      match err with
      | Some err => ev EvStoreClose ;; ret (Some err)
      | None =>
          for_range followers (fun f =>
            _ <- call (EvUnfollow (Follower.Pid f) (Profile.Pid p))
                   (fun s => store_Unfollow s (Follower.Pid f) (Profile.Pid p)) ;;
            ret tt) ;;
          for_range items (fun item =>
            _ <- call
                   (EvAddItem (Item.Pid item) (time_Unix (Item.Event item) 0) (Item.Text item)
                      (Item.Link item) (Item.Image item) (Item.Id item))
                   (fun s => store_AddItem s (Item.Pid item) (time_Unix (Item.Event item) 0)
                               (Item.Text item) (Item.Link item) (Item.Image item)
                               (Item.Id item)) ;;
            ret tt) ;;
          for_range followers (fun f =>
            _ <- call (EvFollow (Follower.Pid f) (Profile.Pid p))
                   (fun s => store_Follow s (Follower.Pid f) (Profile.Pid p)) ;;
            ret tt) ;;
          ev EvStoreClose ;;
          ret None
      end
  | None => ret None
  end.

(** ** The orchestrators *)

(** [len] of a slice that may be nil. *)
Definition len {A} (s : option (list A)) : Z :=
  match s with
  | Some l => Z.of_nat (List.length l)
  | None => 0
  end.

(** [pollFeeds]; [sched] is the schedule of its three feed workers.  The
    coordinator receives one result per profile; [pollFeeds_receive] is the
    body of its receive loop, after [data := <-results]. *)
Definition pollFeeds_receive (data : ProfileItemData.t) : Prog unit :=
  match ProfileItemData.Error data with
  | Some _ =>
      log "Error processing feed for %s: %v"
        [AStr (Profile.Pid (ProfileItemData.Profile data));
         AErr (ProfileItemData.Error data)]
  | None =>
      log "Found %d items in feed for %s"
        [AInt (len (ProfileItemData.Items data));
         AStr (Profile.Pid (ProfileItemData.Profile data))]
  end ;;
  _ <- updateProfileItemData data ;;
  ev EvGosched.

Definition pollFeeds (sched : list nat) : Prog unit :=
  log "Refreshing feeds" [] ;;
  ev EvNewRedisStore ;;
  r <- query EvFeedDrivenProfiles store_FeedDrivenProfiles ;;
  let profiles := fst r in
  let results :=
    arrival (fun w p => snd (feedWorker (Z.of_nat w) p)) 3 sched profiles in
  for_range results pollFeeds_receive ;;
  ev EvStoreClose.

(** [pollImages]; [sched] is the schedule of its three image workers,
    [pollImages_receive] the body of its receive loop. *)
Definition pollImages_receive (data : ItemImageData.t) : Prog unit :=
  match ItemImageData.Error data with
  | Some _ =>
      log "Error processing images for %s: %v"
        [AStr (Item.Id (ItemImageData.Item data)); AErr (ItemImageData.Error data)]
  | None =>
      log "Found image %s for %s"
        [AStr (Item.Image (ItemImageData.Item data));
         AStr (Item.Id (ItemImageData.Item data))]
  end ;;
  _ <- call (EvUpdateItem (ItemImageData.Item data))
         (fun s => store_UpdateItem s (ItemImageData.Item data)) ;;
  ev EvGosched.

Definition pollImages (cfg : Flags) (sched : list nat) : Prog unit :=
  log "Fetching images" [] ;;
  ev EvNewRedisStore ;;
  r <- call (EvGrabItemsNeedingImages 30) (fun s => store_GrabItemsNeedingImages s 30) ;;
  let items := fst r in
  log "%d images need to be fetched" [AInt (Z.of_nat (List.length items))] ;;
  (if 0 <? Z.of_nat (List.length items) then
     let results :=
       arrival (fun w item => snd (imageWorker cfg (Z.of_nat w) item)) 3 sched items in
     for_range results pollImages_receive
   else ret tt) ;;
  ev EvStoreClose.

(** ** checkEnvironment, debugFeed, main *)

(** [os.Exit] leaves without running the deferred [f.Close()]; a panic runs
    it.  In the last test [err] is the nil error of the successful [Stat]:
    evaluating the argument [err.Error()] panics before [log.Printf] is
    called. *)
Definition checkEnvironment (cfg : Flags) : Prog unit :=
  ev (EvOpen (imgDir cfg)) ;;
  match os_Open (imgDir cfg) with
  | inr err =>
      log "Could not open image path %s: %s" [AStr (imgDir cfg); AStr err] ;;
      exit 1
  | inl f =>
      ev (EvStat f) ;;
      match File_Stat f with
      | inr err =>
          log "Could not stat image path %s: %s" [AStr (imgDir cfg); AStr err] ;;
          exit 1
      | inl fi =>
          if negb (IsDir fi) then
            ev (EvFileClose f) ;;
            panic nil_dereference
          else
            ev (EvFileClose f)
      end
  end.

(** [resp.Status] and [feed.Items] dereference their pointers. *)
Definition debugFeed (url : string) : Prog unit :=
  log "Debugging feed %s" [AStr url] ;;
  ev (EvHttpGet url) ;;
  let r := http_Get url in
  match get_resp r with
  | None => panic nil_dereference
  | Some resp =>
      log "Response: %s" [AStr (Response.Status resp)] ;;
      match get_err r with
      | Some err => log "Fetch of feed got http error  %s" [AStr err]
      | None =>
          ev (EvNewFeed (Response.Body resp)) ;;
          let '(feed, err) := feedparser_NewFeed (Response.Body resp) in
          match feed with
          | None =>
              ev EvBodyClose ;;
              panic nil_dereference
          | Some feed =>
              for_range (Feed.Items feed) (fun item =>
                print "--Item (%s)\n" [AStr (FeedItem.Id item)] ;;
                print "  Title: %s\n" [AStr (FeedItem.Title item)] ;;
                print "  Link:  %s\n" [AStr (FeedItem.Link item)] ;;
                print "  Image: %s\n" [AStr (FeedItem.Image item)]) ;;
              ev EvBodyClose
          end
      end
  end.

(** The loop over the ticker channel, for the first [ticks] ticks; round
    [k] of the pools runs under schedule [sched k]. *)
Fixpoint ticker_loop (cfg : Flags) (sched : nat -> list nat) (round ticks : nat)
  : Prog unit :=
  match ticks with
  | O => wait
  | S ticks' =>
      ev EvTicked ;;
      pollFeeds (sched round) ;;
      pollImages cfg (sched (S round)) ;;
      ticker_loop cfg sched (S (S round)) ticks'
  end.

(** [main], from the values the flags have after [flag.Parse()];
    [runtime.GOMAXPROCS] calls nothing outside the process. *)
Definition main (cfg : Flags) (sched : nat -> list nat) (ticks : nat) : Prog unit :=
  if negb (feedurl cfg =? "")%string then
    debugFeed (feedurl cfg)
  else
    checkEnvironment cfg ;;
    log "Image directory: %s" [AStr (imgDir cfg)] ;;
    pollFeeds (sched 0%nat) ;;
    pollImages cfg (sched 1%nat) ;;
    if runOnce cfg then ret tt
    else
      ev (EvTick (30 * Minute)) ;;
      ticker_loop cfg sched 2 ticks.


(** ** What a trace says about the store *)

Definition unfollows (tr : list Event) : list (string * string) :=
  flat_map (fun e => match e with EvUnfollow a b => [(a, b)] | _ => [] end) tr.

Definition follows (tr : list Event) : list (string * string) :=
  flat_map (fun e => match e with EvFollow a b => [(a, b)] | _ => [] end) tr.

(** The ids under which [AddItem] was called. *)
Definition added (tr : list Event) : list string :=
  flat_map (fun e => match e with EvAddItem _ _ _ _ _ id => [id] | _ => [] end) tr.

(** The items [UpdateItem] wrote. *)
Definition written (tr : list Event) : list Item.t :=
  flat_map (fun e => match e with EvUpdateItem item => [item] | _ => [] end) tr.

(** The durations [time.Tick] was called with. *)
Definition tick_periods (tr : list Event) : list Z :=
  flat_map (fun e => match e with EvTick d => [d] | _ => [] end) tr.

(** Calls that never leave the machine: logging and the file system. *)
Definition is_local (e : Event) : bool :=
  match e with
  | EvLog _ _ | EvPrint _ _ | EvOpen _ | EvStat _ | EvFileClose _ => true
  | _ => false
  end.

(** The three store calls of the reorder, as state changes. *)
Definition unfollow_all (pid : string) (followers : list Follower.t) (st : Store) : Store :=
  fold_left (fun s f => fst (store_Unfollow s (Follower.Pid f) pid)) followers st.

Definition follow_all (pid : string) (followers : list Follower.t) (st : Store) : Store :=
  fold_left (fun s f => fst (store_Follow s (Follower.Pid f) pid)) followers st.

Definition add_all (items : list Item.t) (st : Store) : Store :=
  fold_left
    (fun s item =>
       fst (store_AddItem s (Item.Pid item) (time_Unix (Item.Event item) 0) (Item.Text item)
              (Item.Link item) (Item.Image item) (Item.Id item)))
    items st.

(** Is the image directory one [checkEnvironment] accepts? *)
Definition usable (cfg : Flags) : bool :=
  match os_Open (imgDir cfg) with
  | inl f => match File_Stat f with inl fi => IsDir fi | inr _ => false end
  | inr _ => false
  end.

(** ** Counting calls *)

Definition count (sel : Event -> bool) (tr : list Event) : nat :=
  List.length (filter sel tr).

Definition is_open (e : Event) : bool :=
  match e with EvNewRedisStore => true | _ => false end.

Definition is_close (e : Event) : bool :=
  match e with EvStoreClose => true | _ => false end.

(** The coordinator yields once per result received. *)
Definition is_receive (e : Event) : bool :=
  match e with EvGosched => true | _ => false end.

Definition is_file_close (e : Event) : bool :=
  match e with EvFileClose _ => true | _ => false end.

Definition is_parse (e : Event) : bool :=
  match e with EvNewFeed _ => true | _ => false end.

(** The calls that mark the rounds of [main]: the first store call of
    [pollFeeds], the first of [pollImages], and the ticker. *)
Definition is_mark (e : Event) : bool :=
  match e with
  | EvFeedDrivenProfiles | EvGrabItemsNeedingImages _ | EvTick _ | EvTicked => true
  | _ => false
  end.

Definition marks (tr : list Event) : list Event := filter is_mark tr.

(** The calls of [debugFeed]. *)
Definition is_debug (e : Event) : bool :=
  match e with
  | EvLog _ _ | EvPrint _ _ | EvHttpGet _ | EvNewFeed _ | EvBodyClose => true
  | _ => false
  end.

(** [UpdateItem] for each item in turn, as a state change. *)
Definition update_all (items : list Item.t) (st : Store) : Store :=
  fold_left (fun s item => fst (store_UpdateItem s item)) items st.

(** The four lines [debugFeed] prints for an item. *)
Definition debug_lines (item : FeedItem.t) : list Event :=
  [EvPrint "--Item (%s)\n" [AStr (FeedItem.Id item)];
   EvPrint "  Title: %s\n" [AStr (FeedItem.Title item)];
   EvPrint "  Link:  %s\n" [AStr (FeedItem.Link item)];
   EvPrint "  Image: %s\n" [AStr (FeedItem.Image item)]].

(** * Properties *)

(** ** Lists *)

Lemma flat_map_map {A B C} (g : B -> list C) (h : A -> B) (l : list A) :
  flat_map g (map h l) = flat_map (fun x => g (h x)) l.
Proof. induction l as [|x l IH]; simpl; [reflexivity | now rewrite IH]. Qed.

Lemma flat_map_single {A B} (k : A -> B) (l : list A) :
  flat_map (fun x => [k x]) l = map k l.
Proof. induction l as [|x l IH]; simpl; [reflexivity | now rewrite IH]. Qed.

Lemma flat_map_none {A B} (l : list A) :
  flat_map (fun _ => @nil B) l = [].
Proof. induction l as [|x l IH]; simpl; [reflexivity | exact IH]. Qed.


(** ** The worker pool: every job's result arrives, once *)

Section PoolFacts.

Context {J R : Type}.
Variable work : nat -> J -> R.
Variable f : J -> R.
Hypothesis work_f : forall w j, work w j = f j.

Lemma finish_busy (sl : list (option J)) :
  forall w, finish work w sl = map f (busy sl).
Proof.
  induction sl as [|[j|] sl IH]; intros w; simpl.
  - reflexivity.
  - now rewrite IH, work_f.
  - apply IH.
Qed.

Lemma set_slot_at (l1 l2 : list (option J)) (x v : option J) :
  set_slot (List.length l1) v (l1 ++ x :: l2) = l1 ++ v :: l2.
Proof.
  unfold set_slot. induction l1 as [|a l1 IH]; simpl.
  - reflexivity.
  - f_equal. exact IH.
Qed.

Lemma move_account (p : pool) (w : nat) :
  Permutation (account f (move work p w)) (account f p).
Proof.
  unfold move, account.
  destruct (nth_error (slots p) w) as [[j|]|] eqn:E; [| |reflexivity].
  - apply nth_error_split in E. destruct E as (l1 & l2 & Hs & Hw).
    subst w. rewrite Hs, set_slot_at. simpl.
    unfold busy. rewrite !flat_map_app. simpl.
    rewrite !map_app. simpl. rewrite <- !app_assoc. simpl.
    apply Permutation_app_head.
    rewrite work_f. apply Permutation_middle.
  - destruct (queue p) as [|j q] eqn:Q; [rewrite Q; reflexivity|].
    apply nth_error_split in E. destruct E as (l1 & l2 & Hs & Hw).
    subst w. rewrite Hs, set_slot_at. simpl.
    unfold busy. rewrite !flat_map_app. simpl.
    rewrite !map_app. simpl. rewrite <- !app_assoc.
    apply Permutation_app_head, Permutation_app_head.
    apply Permutation_middle.
Qed.

Lemma run_account (sched : list nat) :
  forall p, Permutation (account f (fold_left (move work) sched p)) (account f p).
Proof.
  induction sched as [|w sched IH]; intros p; simpl.
  - reflexivity.
  - rewrite IH. apply move_account.
Qed.

Lemma busy_idle (n : nat) : busy (repeat (@None J) n) = [].
Proof. induction n; simpl; [reflexivity | assumption]. Qed.

Lemma arrival_perm (n : nat) (sched : list nat) (jobs : list J) :
  Permutation (arrival work n sched jobs) (map f jobs).
Proof.
  unfold arrival.
  rewrite finish_busy.
  rewrite (map_ext (work 0%nat) f) by (intros j; apply work_f).
  change (Permutation (account f (fold_left (move work) sched (start n jobs))) (map f jobs)).
  rewrite run_account. unfold account, start. simpl. now rewrite busy_idle.
Qed.

Lemma arrival_length (n : nat) (sched : list nat) (jobs : list J) :
  List.length (arrival work n sched jobs) = List.length jobs.
Proof.
  rewrite (Permutation_length (arrival_perm n sched jobs)). apply length_map.
Qed.

End PoolFacts.

(** [arrival] is what the pool sends when the schedule is run to its end. *)
Section PoolRuns.

Context {J R : Type}.
Variable work : nat -> J -> R.

Lemma move_slots_length (p : pool) (w : nat) :
  List.length (slots (move work p w)) = List.length (slots p).
Proof.
  assert (Hset : forall v, (w < List.length (slots p))%nat ->
                 List.length (set_slot w v (slots p)) = List.length (slots p)).
  { intros v Hw. unfold set_slot.
    rewrite length_app, length_firstn. cbn [List.length]. rewrite length_skipn. lia. }
  unfold move.
  destruct (nth_error (slots p) w) as [[j|]|] eqn:E; [| |reflexivity].
  - apply Hset, nth_error_Some. congruence.
  - destruct (queue p); [reflexivity|].
    apply Hset, nth_error_Some. congruence.
Qed.

Lemma run_slots_length (sched : list nat) :
  forall p : pool,
    List.length (slots (fold_left (move work) sched p)) = List.length (slots p).
Proof.
  induction sched as [|w sched IH]; intros p; cbn [fold_left].
  - reflexivity.
  - now rewrite IH, move_slots_length.
Qed.

Lemma idle_snoc (k : nat) (sl : list (option J)) :
  repeat None k ++ None :: sl = repeat None (S k) ++ sl.
Proof. cbn [repeat]. rewrite repeat_cons, <- app_assoc. reflexivity. Qed.

Lemma send_all (sl : list (option J)) :
  forall (k : nat) (q : list J) (rs : list R),
    fold_left (move work) (busy_workers k sl) (mkPool q (repeat None k ++ sl) rs)
    = mkPool q (repeat None k ++ repeat None (List.length sl)) (rs ++ finish work k sl).
Proof.
  induction sl as [|[j|] sl IH]; intros k q rs; cbn [busy_workers finish fold_left].
  - cbn. now rewrite !app_nil_r.
  - unfold move at 2. cbn [slots queue results].
    rewrite nth_error_app2 by (rewrite repeat_length; lia).
    rewrite repeat_length, Nat.sub_diag. cbn [nth_error].
    pose proof (set_slot_at (repeat None k) sl (Some j) None) as Hset.
    rewrite repeat_length in Hset. rewrite Hset. clear Hset.
    rewrite idle_snoc, IH. cbn [List.length].
    rewrite <- app_assoc. cbn [app].
    f_equal. symmetry. apply (idle_snoc k (repeat None (List.length sl))).
  - rewrite idle_snoc, IH. cbn [List.length].
    f_equal. symmetry. apply (idle_snoc k (repeat None (List.length sl))).
Qed.

Lemma first_worker_empties (q : list J) :
  forall (rest : list (option J)) (rs : list R),
    fold_left (move work) (repeat 0%nat (2 * List.length q)) (mkPool q (None :: rest) rs)
    = mkPool [] (None :: rest) (rs ++ map (work 0%nat) q).
Proof.
  induction q as [|j q IH]; intros rest rs.
  - cbn. now rewrite app_nil_r.
  - replace (2 * List.length (j :: q))%nat with (S (S (2 * List.length q)))
      by (cbn [List.length]; lia).
    cbn [repeat fold_left]. unfold move at 3. cbn [slots queue results nth_error].
    unfold move at 2. cbn [slots queue results nth_error set_slot firstn skipn app].
    rewrite IH. cbn [map]. now rewrite <- app_assoc.
Qed.

(** X13: with at least one worker, every schedule of the pool, followed by
    the moves that let the busy workers send and the first worker empty the
    queue, ends with no job queued and no worker busy, and the results sent
    are the arrival order; no job is left behind. *)
Lemma arrival_is_a_run (n : nat) (sched : list nat) (jobs : list J) :
  (0 < n)%nat ->
  let p := fold_left (move work) sched (start n jobs) in
  let p' := fold_left (move work) (sched ++ completion p) (start n jobs) in
  queue p' = [] /\ busy (slots p') = [] /\ results p' = arrival work n sched jobs.
Proof.
  intros Hn. cbv zeta. rewrite fold_left_app. unfold arrival, completion.
  assert (Hlen : List.length (slots (fold_left (move work) sched (start n jobs))) = n).
  { rewrite run_slots_length. cbn. apply repeat_length. }
  destruct (fold_left (move work) sched (start n jobs)) as [q sl rs].
  cbn [slots queue results] in *.
  rewrite fold_left_app.
  pose proof (send_all sl 0 q rs) as Hs. cbn [repeat app] in Hs. rewrite Hs. clear Hs.
  rewrite Hlen. destruct n as [|n]; [lia|]. cbn [repeat].
  rewrite first_worker_empties. cbn [queue slots results].
  split; [reflexivity|split].
  - change (busy (repeat (@None J) (S n)) = []). apply busy_idle.
  - now rewrite <- app_assoc.
Qed.

Lemma run_is_arrival (n : nat) (sched : list nat) (jobs : list J) :
  let p := fold_left (move work) sched (start n jobs) in
  queue p = [] -> busy (slots p) = [] -> arrival work n sched jobs = results p.
Proof.
  intros p Hq Hb. unfold arrival. fold p. cbn zeta. rewrite Hq.
  assert (Hf : forall sl w, busy sl = [] -> finish work w sl = [] :> list R).
  { induction sl as [|[j|] sl IH]; intros w H; cbn in *;
      [reflexivity | discriminate | now apply IH]. }
  rewrite (Hf _ _ Hb). cbn. now rewrite app_nil_r.
Qed.

End PoolRuns.

(** ** The content identifier *)

(** Digests of known strings. *)
Example md5_empty : contentId "" = "d41d8cd98f00b204e9800998ecf8427e".
Proof. vm_compute. reflexivity. Qed.

Example md5_abc : contentId "abc" = "900150983cd24fb0d6963f7d28e17f72".
Proof. vm_compute. reflexivity. Qed.

Example md5_a1 : contentId "a1" = "8a8bb7cd343aa2ad99b7d762030857a2".
Proof. vm_compute. reflexivity. Qed.

Example md5_message_digest :
  contentId "message digest" = "f96b697d7cb7938d525a2f31aaf161d0".
Proof. vm_compute. reflexivity. Qed.

Example md5_two_blocks :
  contentId "xxxxxxxxxxxxxxxxxxxxxxxxxxxxxxxxxxxxxxxxxxxxxxxxxxxxxxxxxxxxxxxx"
  = "c1bb4f81d892b2d57947682aeb252456".
Proof. vm_compute. reflexivity. Qed.


Lemma le_bytes_range (n : nat) (w : Z) :
  Forall (fun b => 0 <= b < 256) (MD5.le_bytes n w).
Proof.
  unfold MD5.le_bytes. apply Forall_map, Forall_forall.
  intros k _. apply Z.mod_pos_bound. lia.
Qed.


Lemma Sum_range (bs : list Z) : Forall (fun b => 0 <= b < 256) (MD5.Sum bs).
Proof.
  unfold MD5.Sum. cbv zeta. repeat (apply Forall_app; split); apply le_bytes_range.
Qed.





(** ** Programs *)

Lemma bind_returned {A B} (m : Prog A) (k : A -> Prog B) st t s a :
  m st = mkRun t s (Returned a) ->
  bind m k st = mkRun (t ++ trace (k a s)) (final (k a s)) (outcome (k a s)).
Proof. intros H. unfold bind. rewrite H. reflexivity. Qed.

Lemma for_range_calls {A} (l : list A) (e : A -> Event)
    (g : Store -> A -> Store * option error) :
  forall st,
    for_range l (fun x => _ <- call (e x) (fun s => g s x) ;; ret tt) st
    = mkRun (map e l) (fold_left (fun s x => fst (g s x)) l st) (Returned tt).
Proof.
  induction l as [|x l IH]; intros st.
  - reflexivity.
  - cbn [for_range].
    rewrite (bind_returned _ _ st [e x] (fst (g st x)) tt) by reflexivity.
    rewrite IH. reflexivity.
Qed.

(** ** The reorder *)

Lemma updateProfileItemData_nil (data : ProfileItemData.t) (st : Store) :
  ProfileItemData.Items data = None ->
  updateProfileItemData data st = mkRun [] st (Returned None).
Proof. intros HI. unfold updateProfileItemData. now rewrite HI. Qed.

Lemma updateProfileItemData_snapshot (data : ProfileItemData.t) (items : list Item.t)
    (followers : list Follower.t) (st : Store) :
  ProfileItemData.Items data = Some items ->
  store_Followers st (Profile.Pid (ProfileItemData.Profile data))
    (Profile.FollowerCount (ProfileItemData.Profile data)) 0 = (followers, None) ->
  let p := ProfileItemData.Profile data in
  updateProfileItemData data st
  = mkRun
      ([EvNewRedisStore; EvFollowers (Profile.Pid p) (Profile.FollowerCount p) 0]
       ++ map (fun f => EvUnfollow (Follower.Pid f) (Profile.Pid p)) followers
       ++ map (fun item =>
                 EvAddItem (Item.Pid item) (time_Unix (Item.Event item) 0) (Item.Text item)
                   (Item.Link item) (Item.Image item) (Item.Id item)) items
       ++ map (fun f => EvFollow (Follower.Pid f) (Profile.Pid p)) followers
       ++ [EvStoreClose])
      (follow_all (Profile.Pid p) followers
         (add_all items (unfollow_all (Profile.Pid p) followers st)))
      (Returned None).
Proof.
  intros HI HF p. unfold updateProfileItemData. rewrite HI.
  rewrite (bind_returned _ _ st [EvNewRedisStore] st tt) by reflexivity.
  rewrite (bind_returned _ _ st
             [EvFollowers (Profile.Pid p) (Profile.FollowerCount p) 0] st
             (followers, None))
    by (unfold query; fold p; now rewrite <- HF).
  cbn beta iota zeta.
  rewrite (bind_returned _ _ st _ _ tt (for_range_calls followers _ _ st)).
  rewrite (bind_returned _ _ _ _ _ tt (for_range_calls items _ _ _)).
  rewrite (bind_returned _ _ _ _ _ tt (for_range_calls followers _ _ _)).
  rewrite (bind_returned _ _ _ [EvStoreClose] _ tt) by reflexivity.
  cbn [ret trace final outcome].
  rewrite app_nil_r. reflexivity.
Qed.

Lemma updateProfileItemData_no_snapshot (data : ProfileItemData.t) (items : list Item.t)
    (followers : list Follower.t) (err : error) (st : Store) :
  ProfileItemData.Items data = Some items ->
  store_Followers st (Profile.Pid (ProfileItemData.Profile data))
    (Profile.FollowerCount (ProfileItemData.Profile data)) 0 = (followers, Some err) ->
  let p := ProfileItemData.Profile data in
  updateProfileItemData data st
  = mkRun
      [EvNewRedisStore; EvFollowers (Profile.Pid p) (Profile.FollowerCount p) 0; EvStoreClose]
      st (Returned (Some err)).
Proof.
  intros HI HF p. unfold updateProfileItemData. rewrite HI.
  rewrite (bind_returned _ _ st [EvNewRedisStore] st tt) by reflexivity.
  rewrite (bind_returned _ _ st
             [EvFollowers (Profile.Pid p) (Profile.FollowerCount p) 0] st
             (followers, Some err))
    by (unfold query; fold p; now rewrite <- HF).
  reflexivity.
Qed.

Lemma updateProfileItemData_returns (data : ProfileItemData.t) (st : Store) :
  exists e, outcome (updateProfileItemData data st) = Returned e.
Proof.
  destruct (ProfileItemData.Items data) as [items|] eqn:HI.
  - destruct (store_Followers st (Profile.Pid (ProfileItemData.Profile data))
                (Profile.FollowerCount (ProfileItemData.Profile data)) 0)
      as [followers [err|]] eqn:HF.
    + exists (Some err).
      now rewrite (updateProfileItemData_no_snapshot data items followers err st).
    + exists None.
      now rewrite (updateProfileItemData_snapshot data items followers st).
  - exists None. now rewrite updateProfileItemData_nil.
Qed.

(** C1: for a result whose entry list is non-nil (empty or not) and a
    follower snapshot that succeeds, [updateProfileItemData] calls, in this
    order: [Followers] once, for the profile and at most its recorded
    follower count; [Unfollow] for every follower of the snapshot; [AddItem]
    for every entry of the list, under the entry's [Id]; [Follow] for every
    follower of the snapshot.  The unfollow and the follow calls are each
    the snapshot itself, follower by follower, so a follower is unfollowed
    and followed once per place in the snapshot, also when the entry list is
    empty.  The store ends as these calls leave it and nil is returned. *)
Theorem updateProfileItemData_reorder (data : ProfileItemData.t) (items : list Item.t)
    (followers : list Follower.t) (st : Store) :
  ProfileItemData.Items data = Some items ->
  store_Followers st (Profile.Pid (ProfileItemData.Profile data))
    (Profile.FollowerCount (ProfileItemData.Profile data)) 0 = (followers, None) ->
  let p := ProfileItemData.Profile data in
  let r := updateProfileItemData data st in
  trace r
  = [EvNewRedisStore; EvFollowers (Profile.Pid p) (Profile.FollowerCount p) 0]
    ++ map (fun f => EvUnfollow (Follower.Pid f) (Profile.Pid p)) followers
    ++ map (fun item =>
              EvAddItem (Item.Pid item) (time_Unix (Item.Event item) 0) (Item.Text item)
                (Item.Link item) (Item.Image item) (Item.Id item)) items
    ++ map (fun f => EvFollow (Follower.Pid f) (Profile.Pid p)) followers
    ++ [EvStoreClose]
  /\ unfollows (trace r) = map (fun f => (Follower.Pid f, Profile.Pid p)) followers
  /\ added (trace r) = map Item.Id items
  /\ follows (trace r) = map (fun f => (Follower.Pid f, Profile.Pid p)) followers
  /\ final r
     = follow_all (Profile.Pid p) followers
         (add_all items (unfollow_all (Profile.Pid p) followers st))
  /\ outcome r = Returned None.
Proof.
  intros HI HF p r. subst r.
  rewrite (updateProfileItemData_snapshot data items followers st HI HF).
  cbn [trace final outcome]. fold p.
  repeat split.
  - unfold unfollows. rewrite !flat_map_app, !flat_map_map. cbn [flat_map app].
    now rewrite flat_map_single, !flat_map_none, !app_nil_r.
  - unfold added. rewrite !flat_map_app, !flat_map_map. cbn [flat_map app].
    now rewrite flat_map_single, !flat_map_none, !app_nil_r.
  - unfold follows. rewrite !flat_map_app, !flat_map_map. cbn [flat_map app].
    now rewrite flat_map_single, !flat_map_none, !app_nil_r.
Qed.

(** C2: when the entry list is non-nil and the follower snapshot fails,
    [updateProfileItemData] makes no call after the snapshot except closing
    its connection: no [Unfollow], no [AddItem], no [Follow]; the store is
    left as it was and the snapshot's error is returned to the caller. *)
Theorem updateProfileItemData_snapshot_failure (data : ProfileItemData.t)
    (items : list Item.t) (followers : list Follower.t) (err : error) (st : Store) :
  ProfileItemData.Items data = Some items ->
  store_Followers st (Profile.Pid (ProfileItemData.Profile data))
    (Profile.FollowerCount (ProfileItemData.Profile data)) 0 = (followers, Some err) ->
  let p := ProfileItemData.Profile data in
  let r := updateProfileItemData data st in
  trace r
  = [EvNewRedisStore; EvFollowers (Profile.Pid p) (Profile.FollowerCount p) 0; EvStoreClose]
  /\ unfollows (trace r) = []
  /\ added (trace r) = []
  /\ follows (trace r) = []
  /\ final r = st
  /\ outcome r = Returned (Some err).
Proof.
  intros HI HF p r. subst r.
  rewrite (updateProfileItemData_no_snapshot data items followers err st HI HF).
  repeat split.
Qed.

(** ** The receive loops *)

Lemma for_range_returns {A} (body : A -> Prog unit) :
  (forall x st, outcome (body x st) = Returned tt) ->
  forall l st, outcome (for_range l body st) = Returned tt.
Proof.
  intros Hb l. induction l as [|x l IH]; intros st.
  - reflexivity.
  - cbn [for_range]. unfold bind. rewrite Hb. cbn [outcome]. apply IH.
Qed.

Lemma for_range_app {A} (body : A -> Prog unit) :
  (forall x st, outcome (body x st) = Returned tt) ->
  forall l1 l2 st,
    let r1 := for_range l1 body st in
    let r2 := for_range l2 body (final r1) in
    for_range (l1 ++ l2) body st = mkRun (trace r1 ++ trace r2) (final r2) (outcome r2).
Proof.
  intros Hb l1. induction l1 as [|x l1 IH]; intros l2 st.
  - cbn. destruct (for_range l2 body st). reflexivity.
  - cbn zeta. cbn [for_range app]. unfold bind. rewrite Hb.
    rewrite IH. cbn [trace final outcome]. now rewrite app_assoc.
Qed.

Lemma feedWorker_data (id : Z) (p : Profile.t) :
  snd (feedWorker id p) = snd (feedWorker 0 p).
Proof.
  unfold feedWorker. destruct (http_Get (Profile.FeedUrl p)) as [resp|resp err].
  - now destruct (feedparser_NewFeed (Response.Body resp)).
  - reflexivity.
Qed.

Lemma imageWorker_data (cfg : Flags) (id : Z) (item : Item.t) :
  snd (imageWorker cfg id item) = snd (imageWorker cfg 0 item).
Proof.
  unfold imageWorker.
  destruct (imgpick_PickImage (Item.Link item)) as [[img|] [err|]]; try reflexivity.
  destruct (os_OpenFile _ _ _) as [fout|err]; [|reflexivity].
  now destruct (png_Encode _ _).
Qed.

Lemma pollFeeds_receive_returns (data : ProfileItemData.t) (st : Store) :
  outcome (pollFeeds_receive data st) = Returned tt.
Proof.
  unfold pollFeeds_receive.
  destruct (updateProfileItemData_returns data st) as [e He].
  destruct (ProfileItemData.Error data); unfold bind, log, ev; cbn [outcome final];
    rewrite He; reflexivity.
Qed.

Lemma pollImages_receive_run (data : ItemImageData.t) (st : Store) :
  exists format args,
    pollImages_receive data st
    = mkRun [EvLog format args; EvUpdateItem (ItemImageData.Item data); EvGosched]
        (fst (store_UpdateItem st (ItemImageData.Item data))) (Returned tt).
Proof.
  unfold pollImages_receive.
  destruct (ItemImageData.Error data); do 2 eexists; reflexivity.
Qed.

Lemma pollImages_receive_loop (rs : list ItemImageData.t) :
  forall st,
    written (trace (for_range rs pollImages_receive st)) = map ItemImageData.Item rs
    /\ outcome (for_range rs pollImages_receive st) = Returned tt.
Proof.
  induction rs as [|data rs IH]; intros st.
  - split; reflexivity.
  - cbn [for_range].
    destruct (pollImages_receive_run data st) as (format & args & Hrun).
    rewrite (bind_returned _ _ _ _ _ _ Hrun). cbn [trace outcome map].
    destruct (IH (fst (store_UpdateItem st (ItemImageData.Item data)))) as [Hw Ho].
    split; [|exact Ho].
    unfold written in *. cbn [flat_map app]. now rewrite Hw.
Qed.

(** ** The feed workers *)



(** ** The image workers *)

(** C7: when an image is found for an entry, the image worker crops it to
    460 by 160 and opens, for writing, the file named [<Entry.Id>.png]
    joined to the image directory.  If the file cannot be opened the entry
    is sent back as it was, with the error.  Otherwise the cropped image is
    PNG-encoded into the file; if that fails the entry is sent back as it
    was, with the error; if it succeeds the entry is sent back with [Image]
    set to the bare file name [<Entry.Id>.png] and no error. *)
Theorem imageWorker_found (cfg : Flags) (id : Z) (item : Item.t) (img : Image) :
  imgpick_PickImage (Item.Link item) = (Some img, None) ->
  let filename := (Item.Id item ++ ".png")%string in
  let foutName := path_Join (imgDir cfg) filename in
  let imgOut := salience_Crop img 460 160 in
  let calls :=
    [EvLog "Image worker %d processing item %s" [AInt id; AStr (Item.Id item)];
     EvPickImage (Item.Link item);
     EvCrop img 460 160;
     EvOpenFile foutName 65 438] in
  match os_OpenFile foutName 65 438 with
  | inr err => imageWorker cfg id item = (calls, ItemImageData.mk item (Some err))
  | inl fout =>
      match png_Encode fout imgOut with
      | Some err =>
          imageWorker cfg id item
          = (calls ++ [EvPngEncode fout imgOut], ItemImageData.mk item (Some err))
      | None =>
          imageWorker cfg id item
          = (calls ++ [EvPngEncode fout imgOut],
             ItemImageData.mk
               (Item.mk (Item.Id item) (Item.Pid item) (Item.Event item) (Item.Text item)
                  (Item.Link item) filename)
               None)
      end
  end.
Proof.
  intros HP filename foutName imgOut calls.
  unfold imageWorker. rewrite HP.
  change (Z.lor O_CREATE O_WRONLY) with 65.
  fold filename. fold foutName. fold imgOut.
  destruct (os_OpenFile foutName 65 438) as [fout|err]; [|reflexivity].
  destruct (png_Encode fout imgOut); reflexivity.
Qed.

(** ** The image backfill *)

Lemma written_app (t1 t2 : list Event) : written (t1 ++ t2) = written t1 ++ written t2.
Proof. unfold written. apply flat_map_app. Qed.

Lemma pollImages_written (cfg : Flags) (sched : list nat) (st : Store) :
  written (trace (pollImages cfg sched st))
  = map ItemImageData.Item
      (arrival (fun w item => snd (imageWorker cfg (Z.of_nat w) item)) 3 sched
         (fst (snd (store_GrabItemsNeedingImages st 30))))
  /\ outcome (pollImages cfg sched st) = Returned tt.
Proof.
  unfold pollImages.
  rewrite (bind_returned _ _ st [EvLog "Fetching images" []] st tt) by reflexivity.
  rewrite (bind_returned _ _ st [EvNewRedisStore] st tt) by reflexivity.
  rewrite (bind_returned _ _ st [EvGrabItemsNeedingImages 30]
             (fst (store_GrabItemsNeedingImages st 30))
             (snd (store_GrabItemsNeedingImages st 30))) by reflexivity.
  set (items := fst (snd (store_GrabItemsNeedingImages st 30))).
  set (st1 := fst (store_GrabItemsNeedingImages st 30)).
  rewrite (bind_returned _ _ st1
             [EvLog "%d images need to be fetched" [AInt (Z.of_nat (List.length items))]]
             st1 tt) by reflexivity.
  set (rs := arrival (fun w item => snd (imageWorker cfg (Z.of_nat w) item)) 3 sched items).
  assert (Hloop : exists t s,
    (if 0 <? Z.of_nat (List.length items) then for_range rs pollImages_receive else ret tt) st1
    = mkRun t s (Returned tt) /\ written t = map ItemImageData.Item rs).
  { destruct (0 <? Z.of_nat (List.length items)) eqn:Hn.
    - destruct (pollImages_receive_loop rs st1) as [Hw Ho].
      destruct (for_range rs pollImages_receive st1) as [t s o].
      cbn [trace outcome] in Hw, Ho. subst o. now exists t, s.
    - exists [], st1. split; [reflexivity|].
      assert (Hlen : List.length rs = 0%nat).
      { subst rs. rewrite (arrival_length _ (fun item => snd (imageWorker cfg 0 item)))
          by (intros w item; apply imageWorker_data).
        apply Z.ltb_ge in Hn. lia. }
      apply length_zero_iff_nil in Hlen. now rewrite Hlen. }
  destruct Hloop as (t & s & Hrun & Hw).
  rewrite (bind_returned _ _ _ _ _ _ Hrun).
  cbn [trace outcome ev].
  split; [|reflexivity].
  rewrite !written_app, Hw. cbn. now rewrite app_nil_r.
Qed.

(** C6: in a run of [pollImages], whatever the schedule of the image
    workers, the items written with [UpdateItem] are, one for one, the items
    the workers send back for the entries grabbed from the store: one write
    per entry submitted, found image or not.  When the selection returns no
    image or an error, the worker sends the entry back as it was, with the
    selection's error, so its [Image] field is what it was. *)
Theorem pollImages_writes_back (cfg : Flags) (sched : list nat) (st : Store) :
  let items := fst (snd (store_GrabItemsNeedingImages st 30)) in
  let tr := trace (pollImages cfg sched st) in
  Permutation (written tr)
    (map (fun item => ItemImageData.Item (snd (imageWorker cfg 0 item))) items)
  /\ List.length (written tr) = List.length items
  /\ (forall id item,
        match imgpick_PickImage (Item.Link item) with
        | (Some _, None) => True
        | (_, err) =>
            imageWorker cfg id item
            = ([EvLog "Image worker %d processing item %s" [AInt id; AStr (Item.Id item)];
                EvPickImage (Item.Link item)],
               ItemImageData.mk item err)
        end).
Proof.
  intros items tr.
  assert (Hp : Permutation (written tr)
    (map (fun item => ItemImageData.Item (snd (imageWorker cfg 0 item))) items)).
  { subst tr. rewrite (proj1 (pollImages_written cfg sched st)). fold items.
    rewrite <- (map_map (fun item => snd (imageWorker cfg 0 item)) ItemImageData.Item).
    apply Permutation_map, arrival_perm.
    intros w item. apply imageWorker_data. }
  split; [exact Hp|split].
  - rewrite (Permutation_length Hp). apply length_map.
  - intros id item. unfold imageWorker.
    destruct (imgpick_PickImage (Item.Link item)) as [[img|] [err|]]; auto.
Qed.

(** ** Startup *)

Lemma bind_trace {A B} (m : Prog A) (k : A -> Prog B) (st : Store) :
  exists rest, trace (bind m k st) = trace (m st) ++ rest.
Proof.
  unfold bind. destruct (outcome (m st)); cbn [trace];
    [eexists; reflexivity | exists []; now rewrite app_nil_r ..].
Qed.

Lemma pollFeeds_starts (sched : list nat) (st : Store) :
  exists rest,
    trace (pollFeeds sched st)
    = [EvLog "Refreshing feeds" []; EvNewRedisStore; EvFeedDrivenProfiles] ++ rest.
Proof.
  unfold pollFeeds.
  rewrite (bind_returned _ _ st [EvLog "Refreshing feeds" []] st tt) by reflexivity.
  rewrite (bind_returned _ _ st [EvNewRedisStore] st tt) by reflexivity.
  rewrite (bind_returned _ _ st [EvFeedDrivenProfiles] st (store_FeedDrivenProfiles st))
    by reflexivity.
  cbn [trace]. eexists. reflexivity.
Qed.

(** C9: outside debug mode, [main] first checks the image directory.  If
    the path cannot be opened or cannot be stat-ed, the process exits with
    status 1; if it is not a directory, the process dies with status 2;
    in all three cases it has made no call but logging and the file system
    calls of the check, and the store is untouched.  If the path is a
    directory the check returns and [main] goes on to poll the feeds. *)
Theorem main_checks_environment (cfg : Flags) (sched : nat -> list nat) (ticks : nat)
    (st : Store) :
  feedurl cfg = "" ->
  let r := main cfg sched ticks st in
  let stopped (code : Z) :=
    exit_status (outcome r) = Some code
    /\ code <> 0
    /\ forallb is_local (trace r) = true
    /\ final r = st in
  match os_Open (imgDir cfg) with
  | inr _ => stopped 1
  | inl f =>
      match File_Stat f with
      | inr _ => stopped 1
      | inl fi =>
          if IsDir fi then
            checkEnvironment cfg st
            = mkRun [EvOpen (imgDir cfg); EvStat f; EvFileClose f] st (Returned tt)
            /\ exists rest,
                 trace r
                 = [EvOpen (imgDir cfg); EvStat f; EvFileClose f;
                    EvLog "Image directory: %s" [AStr (imgDir cfg)];
                    EvLog "Refreshing feeds" []; EvNewRedisStore; EvFeedDrivenProfiles]
                   ++ rest
          else stopped 2
      end
  end.
Proof.
  intros Hurl r stopped. subst r stopped. unfold main. rewrite Hurl.
  cbn [String.eqb negb]. unfold checkEnvironment.
  destruct (os_Open (imgDir cfg)) as [f|err].
  - destruct (File_Stat f) as [fi|err].
    + destruct (IsDir fi).
      * cbn [negb].
        assert (Hc : (ev (EvOpen (imgDir cfg)) ;; ev (EvStat f) ;; ev (EvFileClose f)) st
                     = mkRun [EvOpen (imgDir cfg); EvStat f; EvFileClose f] st (Returned tt))
          by reflexivity.
        split; [exact Hc|].
        rewrite (bind_returned _ _ _ _ _ _ Hc).
        rewrite (bind_returned _ _ st [EvLog "Image directory: %s" [AStr (imgDir cfg)]] st tt)
          by reflexivity.
        cbn [trace].
        destruct (bind_trace (pollFeeds (sched 0%nat))
                    (fun _ => pollImages cfg (sched 1%nat) ;;
                              (if runOnce cfg then ret tt
                               else ev (EvTick (30 * Minute)) ;; ticker_loop cfg sched 2 ticks))
                    st) as [rest1 H1].
        rewrite H1.
        destruct (pollFeeds_starts (sched 0%nat) st) as [rest2 H2].
        rewrite H2. exists (rest2 ++ rest1).
        cbn [app]. reflexivity.
      * cbn. repeat split. discriminate.
    + cbn. repeat split. discriminate.
  - cbn. repeat split. discriminate.
Qed.

(** * Further properties *)

(** ** The workers *)

(** X1: the entry list a feed worker sends is nil exactly when the HTTP
    retrieval failed; the result always names the job's profile, and a nil
    list always comes with the transport error, so an update that is skipped
    is one whose error the coordinator logs.  The parser is called once after
    a successful retrieval and never after a failed one. *)
Theorem feedWorker_nil_items (id : Z) (p : Profile.t) :
  let data := snd (feedWorker id p) in
  ProfileItemData.Profile data = p
  /\ (ProfileItemData.Items data = None <-> get_err (http_Get (Profile.FeedUrl p)) <> None)
  /\ match ProfileItemData.Items data with
     | None => ProfileItemData.Error data = get_err (http_Get (Profile.FeedUrl p))
               /\ count is_parse (fst (feedWorker id p)) = 0%nat
     | Some _ => count is_parse (fst (feedWorker id p)) = 1%nat
     end.
Proof.
  unfold feedWorker. cbv zeta.
  destruct (http_Get (Profile.FeedUrl p)) as [resp|resp err].
  - destruct (feedparser_NewFeed (Response.Body resp)) as [feed perr].
    cbn. repeat split; try reflexivity; intros H; try discriminate; now elim H.
  - cbn. repeat split; try reflexivity; intros; discriminate.
Qed.

(** X2: whatever happens, the item an image worker sends back differs from
    the one it was given at most in [Image]: either it is the same item, or
    it is that item with [Image] set to [<Id>.png] and the result carries no
    error.  The worker never closes the file it opened. *)
Theorem imageWorker_keeps_item (cfg : Flags) (id : Z) (item : Item.t) :
  let data := snd (imageWorker cfg id item) in
  let out := ItemImageData.Item data in
  (out = item
   \/ (out = Item.set_Image (Item.Id item ++ ".png")%string item
       /\ ItemImageData.Error data = None))
  /\ Item.Id out = Item.Id item
  /\ Item.Pid out = Item.Pid item
  /\ Item.Event out = Item.Event item
  /\ Item.Text out = Item.Text item
  /\ Item.Link out = Item.Link item
  /\ count is_file_close (fst (imageWorker cfg id item)) = 0%nat.
Proof.
  unfold imageWorker. cbv zeta.
  destruct (imgpick_PickImage (Item.Link item)) as [[img|] [err|]];
    try (cbn; repeat split; now left).
  destruct (os_OpenFile _ _ _) as [fout|err]; [|cbn; repeat split; now left].
  destruct (png_Encode _ _) as [err|]; cbn; repeat split; auto.
Qed.

(** ** The content identifier *)

Lemma hexdigit_inj (n m : Z) :
  0 <= n < 16 -> 0 <= m < 16 -> hexdigit n = hexdigit m -> n = m.
Proof.
  intros Hn Hm H. unfold hexdigit in H.
  assert (Ha : (Z.to_nat n < 16)%nat) by lia.
  assert (Hb : (Z.to_nat m < 16)%nat) by lia.
  assert (E : Z.to_nat n = Z.to_nat m).
  { revert H Ha Hb. generalize (Z.to_nat n) as a, (Z.to_nat m) as b. intros a b H Ha Hb.
    do 16 (destruct a as [|a];
           [do 16 (destruct b as [|b];
                   [first [reflexivity | cbn in H; discriminate H]|]); lia|]).
    lia. }
  lia.
Qed.

Lemma Sprintf_x_inj (bs1 : list Z) :
  forall bs2,
    Forall (fun b => 0 <= b < 256) bs1 -> Forall (fun b => 0 <= b < 256) bs2 ->
    Sprintf_x bs1 = Sprintf_x bs2 -> bs1 = bs2.
Proof.
  induction bs1 as [|b1 bs1 IH]; intros [|b2 bs2] H1 H2 E; cbn in E;
    try reflexivity; try discriminate.
  inversion H1 as [|? ? Hb1 H1']; inversion H2 as [|? ? Hb2 H2']; subst.
  injection E as Ehi Elo Erest.
  apply hexdigit_inj in Ehi;
    [|split; [apply Z.div_pos; lia | apply Z.div_lt_upper_bound; lia] ..].
  apply hexdigit_inj in Elo; [|apply Z.mod_pos_bound; lia ..].
  f_equal.
  - rewrite (Z.div_mod b1 16), (Z.div_mod b2 16) by lia. now rewrite Ehi, Elo.
  - now apply IH.
Qed.

(** X3: two source ids get the same entry id exactly when their MD5 digests
    are equal: writing the digest in hexadecimal loses nothing, so entry ids
    collide only where MD5 does. *)
Theorem contentId_collides_with_MD5 (a b : string) :
  contentId a = contentId b <-> MD5.Sum (bytes a) = MD5.Sum (bytes b).
Proof.
  unfold contentId. split.
  - apply Sprintf_x_inj; apply Sum_range.
  - now intros ->.
Qed.

(** ** Counting in traces *)

Lemma bind_outcome {A B} (m : Prog A) (k : A -> Prog B) (st : Store) (a : A) :
  outcome (m st) = Returned a ->
  bind m k st
  = mkRun (trace (m st) ++ trace (k a (final (m st))))
      (final (k a (final (m st)))) (outcome (k a (final (m st)))).
Proof. intros H. unfold bind. rewrite H. reflexivity. Qed.

Lemma count_app (sel : Event -> bool) (t1 t2 : list Event) :
  count sel (t1 ++ t2) = (count sel t1 + count sel t2)%nat.
Proof. unfold count. now rewrite filter_app, length_app. Qed.

Lemma filter_map_none {A} (sel : Event -> bool) (g : A -> Event) (l : list A) :
  (forall x, sel (g x) = false) -> filter sel (map g l) = [].
Proof.
  intros H. induction l as [|x l IH]; cbn; [reflexivity|]. now rewrite H.
Qed.

Lemma for_range_filter {A} (sel : Event -> bool) (body : A -> Prog unit) :
  (forall x st, outcome (body x st) = Returned tt /\ filter sel (trace (body x st)) = []) ->
  forall l st, filter sel (trace (for_range l body st)) = [].
Proof.
  intros Hb l. induction l as [|x l IH]; intros st; cbn [for_range].
  - reflexivity.
  - destruct (Hb x st) as [Ho Hf].
    rewrite (bind_outcome _ _ _ _ Ho). cbn [trace].
    now rewrite filter_app, Hf, IH.
Qed.

Lemma for_range_count {A} (sel : Event -> bool) (body : A -> Prog unit) (k : nat) :
  (forall x st, outcome (body x st) = Returned tt /\ count sel (trace (body x st)) = k) ->
  forall l st, count sel (trace (for_range l body st)) = (k * List.length l)%nat.
Proof.
  intros Hb l. induction l as [|x l IH]; intros st; cbn [for_range List.length].
  - cbn. lia.
  - destruct (Hb x st) as [Ho Hc].
    rewrite (bind_outcome _ _ _ _ Ho). cbn [trace].
    rewrite count_app, Hc, IH. lia.
Qed.

Lemma for_range_balance {A} (s1 s2 : Event -> bool) (body : A -> Prog unit) :
  (forall x st, outcome (body x st) = Returned tt
                /\ count s1 (trace (body x st)) = count s2 (trace (body x st))) ->
  forall l st,
    count s1 (trace (for_range l body st)) = count s2 (trace (for_range l body st)).
Proof.
  intros Hb l. induction l as [|x l IH]; intros st; cbn [for_range].
  - reflexivity.
  - destruct (Hb x st) as [Ho Hc].
    rewrite (bind_outcome _ _ _ _ Ho). cbn [trace].
    now rewrite !count_app, Hc, IH.
Qed.

(** ** updateProfileItemData, whatever the result *)

Lemma updateProfileItemData_cases (data : ProfileItemData.t) (st : Store) :
  let p := ProfileItemData.Profile data in
  let snapshot := store_Followers st (Profile.Pid p) (Profile.FollowerCount p) 0 in
  (ProfileItemData.Items data = None
   /\ updateProfileItemData data st = mkRun [] st (Returned None))
  \/ (exists items err,
        ProfileItemData.Items data = Some items /\ snd snapshot = Some err
        /\ updateProfileItemData data st
           = mkRun [EvNewRedisStore;
                    EvFollowers (Profile.Pid p) (Profile.FollowerCount p) 0;
                    EvStoreClose]
               st (Returned (Some err)))
  \/ (exists items,
        ProfileItemData.Items data = Some items /\ snd snapshot = None
        /\ updateProfileItemData data st
           = mkRun
               ([EvNewRedisStore; EvFollowers (Profile.Pid p) (Profile.FollowerCount p) 0]
                ++ map (fun f => EvUnfollow (Follower.Pid f) (Profile.Pid p)) (fst snapshot)
                ++ map (fun item =>
                          EvAddItem (Item.Pid item) (time_Unix (Item.Event item) 0)
                            (Item.Text item) (Item.Link item) (Item.Image item)
                            (Item.Id item)) items
                ++ map (fun f => EvFollow (Follower.Pid f) (Profile.Pid p)) (fst snapshot)
                ++ [EvStoreClose])
               (follow_all (Profile.Pid p) (fst snapshot)
                  (add_all items (unfollow_all (Profile.Pid p) (fst snapshot) st)))
               (Returned None)).
Proof.
  intros p snapshot.
  destruct (ProfileItemData.Items data) as [items|] eqn:HI.
  - right. destruct snapshot as [followers [err|]] eqn:HF.
    + left. exists items, err. repeat split.
      exact (updateProfileItemData_no_snapshot data items followers err st HI HF).
    + right. exists items. repeat split.
      exact (updateProfileItemData_snapshot data items followers st HI HF).
  - left. split; [reflexivity|]. now apply updateProfileItemData_nil.
Qed.

Lemma updateProfileItemData_counts (data : ProfileItemData.t) (st : Store) :
  let tr := trace (updateProfileItemData data st) in
  count is_open tr = count is_close tr
  /\ count is_receive tr = 0%nat
  /\ marks tr = [].
Proof.
  cbv zeta.
  destruct (updateProfileItemData_cases data st)
    as [[_ Hr]|[(items & err & _ & _ & Hr)|(items & _ & _ & Hr)]];
    rewrite Hr; cbn [trace]; [repeat split .. |].
  unfold count, marks. rewrite !filter_app.
  rewrite !filter_map_none by reflexivity.
  repeat split.
Qed.

(** X4: [updateProfileItemData] always returns; what it returns is the
    error of the follower snapshot when the entry list is non-nil, and nil
    otherwise: an error of [Unfollow], [AddItem] or [Follow] is never
    reported.  It closes the one store connection it opens, and opens none
    for a nil list. *)
Theorem updateProfileItemData_reports_snapshot_only (data : ProfileItemData.t)
    (st : Store) :
  let p := ProfileItemData.Profile data in
  let r := updateProfileItemData data st in
  outcome r
  = Returned
      match ProfileItemData.Items data with
      | Some _ =>
          snd (store_Followers st (Profile.Pid p) (Profile.FollowerCount p) 0)
      | None => None
      end
  /\ count is_open (trace r) = match ProfileItemData.Items data with Some _ => 1%nat | None => 0%nat end
  /\ count is_close (trace r) = count is_open (trace r).
Proof.
  cbv zeta.
  destruct (updateProfileItemData_cases data st)
    as [[HI Hr]|[(items & err & HI & HF & Hr)|(items & HI & HF & Hr)]];
    rewrite Hr, HI; cbn [trace outcome]; [repeat split | now rewrite HF |].
  rewrite HF. unfold count. rewrite !filter_app.
  rewrite !filter_map_none by reflexivity.
  repeat split.
Qed.

(** ** The feed poll *)

Lemma pollFeeds_receive_run (data : ProfileItemData.t) (st : Store) :
  exists format args,
    pollFeeds_receive data st
    = mkRun (EvLog format args :: trace (updateProfileItemData data st) ++ [EvGosched])
        (final (updateProfileItemData data st)) (Returned tt).
Proof.
  destruct (updateProfileItemData_returns data st) as [e He].
  unfold pollFeeds_receive.
  destruct (ProfileItemData.Error data); do 2 eexists;
    (rewrite (bind_returned _ _ st [EvLog _ _] st tt) by reflexivity);
    rewrite (bind_outcome _ _ _ _ He); reflexivity.
Qed.

Lemma pollFeeds_receive_counts (data : ProfileItemData.t) (st : Store) :
  let r := pollFeeds_receive data st in
  outcome r = Returned tt
  /\ count is_open (trace r) = count is_close (trace r)
  /\ count is_receive (trace r) = 1%nat
  /\ marks (trace r) = [].
Proof.
  cbv zeta. destruct (pollFeeds_receive_run data st) as (format & args & Hr).
  rewrite Hr. cbn [trace outcome].
  destruct (updateProfileItemData_counts data st) as (Hb & Hg & Hm).
  change (EvLog format args :: trace (updateProfileItemData data st) ++ [EvGosched])
    with ([EvLog format args] ++ trace (updateProfileItemData data st) ++ [EvGosched]).
  unfold marks in *. rewrite !count_app, !filter_app, Hb, Hg, Hm.
  repeat split.
Qed.

Lemma pollFeeds_run (sched : list nat) (st : Store) :
  let rs := arrival (fun w p => snd (feedWorker (Z.of_nat w) p)) 3 sched
              (fst (store_FeedDrivenProfiles st)) in
  let loop := for_range rs pollFeeds_receive st in
  pollFeeds sched st
  = mkRun ([EvLog "Refreshing feeds" []; EvNewRedisStore; EvFeedDrivenProfiles]
           ++ trace loop ++ [EvStoreClose])
      (final loop) (Returned tt).
Proof.
  cbv zeta. unfold pollFeeds.
  rewrite (bind_returned _ _ st [EvLog "Refreshing feeds" []] st tt) by reflexivity.
  rewrite (bind_returned _ _ st [EvNewRedisStore] st tt) by reflexivity.
  rewrite (bind_returned _ _ st [EvFeedDrivenProfiles] st (store_FeedDrivenProfiles st))
    by reflexivity.
  rewrite (bind_outcome _ _ _ _ (for_range_returns _ pollFeeds_receive_returns _ st)).
  reflexivity.
Qed.

(** C3: when the HTTP retrieval of a profile's feed fails, the feed worker
    calls the parser not at all and sends the result made of the profile, a
    nil entry list and the transport error.  For that result
    [updateProfileItemData] calls nothing and leaves the store alone, and the
    coordinator only logs the error.  In a run of [pollFeeds] over a batch
    that holds the profile, whatever the schedule of the workers, the
    results received are those of the profiles of the batch, each once; the
    run handles the results received before the failed one, logs the
    failure, handles the results received after it from the store the
    earlier ones left, closes its connection and returns.  The same holds
    of every profile of the batch: its result is handled within the run. *)
Theorem feedWorker_transport_failure (id : Z) (p : Profile.t)
    (resp : option Response.t) (err : error) :
  http_Get (Profile.FeedUrl p) = GetErr resp err ->
  let failure := ProfileItemData.mk p None (Some err) in
  let logged :=
    [EvLog "Error processing feed for %s: %v" [AStr (Profile.Pid p); AErr (Some err)];
     EvGosched] in
  let opening := [EvLog "Refreshing feeds" []; EvNewRedisStore; EvFeedDrivenProfiles] in
  feedWorker id p
  = ([EvLog "Feed worker %d processing feed %s" [AInt id; AStr (Profile.FeedUrl p)];
      EvHttpGet (Profile.FeedUrl p);
      EvLog "Feed worker %d got http error  %s" [AInt id; AStr err]],
     failure)
  /\ (forall st, updateProfileItemData failure st = mkRun [] st (Returned None))
  /\ (forall st, pollFeeds_receive failure st = mkRun logged st (Returned tt))
  /\ (forall sched st,
        In p (fst (store_FeedDrivenProfiles st)) ->
        exists before after,
          Permutation (before ++ failure :: after)
            (map (fun q => snd (feedWorker 0 q)) (fst (store_FeedDrivenProfiles st)))
          /\ let r1 := for_range before pollFeeds_receive st in
             let r2 := for_range after pollFeeds_receive (final r1) in
             pollFeeds sched st
             = mkRun (opening ++ trace r1 ++ logged ++ trace r2 ++ [EvStoreClose])
                 (final r2) (Returned tt))
  /\ (forall sched st q,
        In q (fst (store_FeedDrivenProfiles st)) ->
        exists before after,
          Permutation (before ++ snd (feedWorker 0 q) :: after)
            (map (fun q => snd (feedWorker 0 q)) (fst (store_FeedDrivenProfiles st)))
          /\ let r1 := for_range before pollFeeds_receive st in
             let rq := pollFeeds_receive (snd (feedWorker 0 q)) (final r1) in
             let r2 := for_range after pollFeeds_receive (final rq) in
             pollFeeds sched st
             = mkRun (opening ++ trace r1 ++ trace rq ++ trace r2 ++ [EvStoreClose])
                 (final r2) (Returned tt)).
Proof.
  intros HG failure logged opening.
  assert (Hrecv : forall st, pollFeeds_receive failure st = mkRun logged st (Returned tt))
    by reflexivity.
  assert (Hfail : snd (feedWorker 0 p) = failure)
    by (unfold feedWorker; rewrite HG; reflexivity).
  assert (Hevery : forall sched st q,
    In q (fst (store_FeedDrivenProfiles st)) ->
    exists before after,
      Permutation (before ++ snd (feedWorker 0 q) :: after)
        (map (fun q => snd (feedWorker 0 q)) (fst (store_FeedDrivenProfiles st)))
      /\ let r1 := for_range before pollFeeds_receive st in
         let rq := pollFeeds_receive (snd (feedWorker 0 q)) (final r1) in
         let r2 := for_range after pollFeeds_receive (final rq) in
         pollFeeds sched st
         = mkRun (opening ++ trace r1 ++ trace rq ++ trace r2 ++ [EvStoreClose])
             (final r2) (Returned tt)).
  { intros sched st q Hin.
    pose proof (arrival_perm (fun w q => snd (feedWorker (Z.of_nat w) q))
                  (fun q => snd (feedWorker 0 q))
                  (fun w q => feedWorker_data (Z.of_nat w) q) 3 sched
                  (fst (store_FeedDrivenProfiles st))) as Hperm.
    assert (Hq : In (snd (feedWorker 0 q))
                   (arrival (fun w q => snd (feedWorker (Z.of_nat w) q)) 3 sched
                      (fst (store_FeedDrivenProfiles st)))).
    { apply (Permutation_in _ (Permutation_sym Hperm)).
      apply in_map_iff. now exists q. }
    apply in_split in Hq. destruct Hq as (before & after & Hsplit).
    exists before, after. split; [now rewrite <- Hsplit|].
    cbv zeta. rewrite pollFeeds_run. cbv zeta. rewrite Hsplit.
    rewrite (for_range_app _ pollFeeds_receive_returns before
               (snd (feedWorker 0 q) :: after) st).
    cbn [for_range trace final outcome].
    rewrite (bind_outcome _ _ _ _
               (pollFeeds_receive_returns (snd (feedWorker 0 q))
                  (final (for_range before pollFeeds_receive st)))).
    cbn [trace final outcome].
    subst opening. rewrite <- !app_assoc. reflexivity. }
  split; [|split; [|split; [|split]]].
  - unfold feedWorker. rewrite HG. reflexivity.
  - reflexivity.
  - exact Hrecv.
  - intros sched st Hin.
    destruct (Hevery sched st p Hin) as (before & after & Hperm & Hrun).
    rewrite Hfail in Hperm, Hrun. exists before, after. split; [exact Hperm|].
    cbv zeta in *. rewrite Hrun, Hrecv. reflexivity.
  - exact Hevery.
Qed.

Lemma pollFeeds_marks (sched : list nat) (st : Store) :
  marks (trace (pollFeeds sched st)) = [EvFeedDrivenProfiles]
  /\ outcome (pollFeeds sched st) = Returned tt.
Proof.
  rewrite pollFeeds_run. cbn [trace outcome]. split; [|reflexivity].
  unfold marks. rewrite !filter_app.
  rewrite (for_range_filter is_mark pollFeeds_receive).
  - reflexivity.
  - intros data s. destruct (pollFeeds_receive_counts data s) as (Ho & _ & _ & Hm).
    split; [exact Ho | exact Hm].
Qed.

(** X5: a run of [pollFeeds] always returns.  Under every schedule of the
    workers the results the coordinator receives are the results of the
    feed-driven profiles, each once, in some order; the run is the opening
    calls, then, result after result, the log line of the result, the calls
    of [updateProfileItemData] on it from the store the earlier results left
    and one yield, then the closing of the connection.  The run closes as
    many store connections as it opens. *)
Theorem pollFeeds_receives_each_profile (sched : list nat) (st : Store) :
  let line data :=
    match ProfileItemData.Error data with
    | Some _ =>
        EvLog "Error processing feed for %s: %v"
          [AStr (Profile.Pid (ProfileItemData.Profile data));
           AErr (ProfileItemData.Error data)]
    | None =>
        EvLog "Found %d items in feed for %s"
          [AInt (len (ProfileItemData.Items data));
           AStr (Profile.Pid (ProfileItemData.Profile data))]
    end in
  (exists rs,
     Permutation rs
       (map (fun p => snd (feedWorker 0 p)) (fst (store_FeedDrivenProfiles st)))
     /\ pollFeeds sched st
        = mkRun
            ([EvLog "Refreshing feeds" []; EvNewRedisStore; EvFeedDrivenProfiles]
             ++ trace (for_range rs pollFeeds_receive st) ++ [EvStoreClose])
            (final (for_range rs pollFeeds_receive st)) (Returned tt))
  /\ (forall data s,
        pollFeeds_receive data s
        = mkRun ([line data] ++ trace (updateProfileItemData data s) ++ [EvGosched])
            (final (updateProfileItemData data s)) (Returned tt))
  /\ count is_receive (trace (pollFeeds sched st))
     = List.length (fst (store_FeedDrivenProfiles st))
  /\ count is_open (trace (pollFeeds sched st))
     = count is_close (trace (pollFeeds sched st)).
Proof.
  cbv zeta. split; [|split; [|split]].
  - eexists. split; [|apply pollFeeds_run].
    apply arrival_perm. intros w q. apply feedWorker_data.
  - intros data s.
    destruct (updateProfileItemData_returns data s) as [e He].
    unfold pollFeeds_receive.
    destruct (ProfileItemData.Error data);
      (rewrite (bind_returned _ _ s [EvLog _ _] s tt) by reflexivity);
      rewrite (bind_outcome _ _ _ _ He); reflexivity.
  - rewrite pollFeeds_run. cbn [trace]. rewrite !count_app.
    rewrite (for_range_count is_receive pollFeeds_receive 1).
    + rewrite (arrival_length _ (fun p => snd (feedWorker 0 p)))
        by (intros w q; apply feedWorker_data).
      cbn. lia.
    + intros data s. destruct (pollFeeds_receive_counts data s) as (Ho & _ & Hg & _).
      split; [exact Ho | exact Hg].
  - rewrite pollFeeds_run. cbn [trace]. rewrite !count_app.
    rewrite (for_range_balance is_open is_close pollFeeds_receive).
    + generalize (count is_close (trace (for_range
        (arrival (fun w p => snd (feedWorker (Z.of_nat w) p)) 3 sched
           (fst (store_FeedDrivenProfiles st))) pollFeeds_receive st))).
      intros c. cbn. lia.
    + intros data s. destruct (pollFeeds_receive_counts data s) as (Ho & Hb & _).
      split; [exact Ho | exact Hb].
Qed.

(** X6: a feed that was fetched but could not be parsed still reorders the
    followers.  When the retrieval succeeds, the parser returns a nil feed
    with an error and the snapshot succeeds, the coordinator logs the error
    and then unfollows and re-follows every follower of the snapshot, adding
    no entry. *)
Theorem parse_failure_still_reorders (id : Z) (p : Profile.t) (resp : Response.t)
    (err : error) (followers : list Follower.t) (st : Store) :
  http_Get (Profile.FeedUrl p) = GetOk resp ->
  feedparser_NewFeed (Response.Body resp) = (None, Some err) ->
  store_Followers st (Profile.Pid p) (Profile.FollowerCount p) 0 = (followers, None) ->
  pollFeeds_receive (snd (feedWorker id p)) st
  = mkRun
      ([EvLog "Error processing feed for %s: %v" [AStr (Profile.Pid p); AErr (Some err)];
        EvNewRedisStore; EvFollowers (Profile.Pid p) (Profile.FollowerCount p) 0]
       ++ map (fun f => EvUnfollow (Follower.Pid f) (Profile.Pid p)) followers
       ++ map (fun f => EvFollow (Follower.Pid f) (Profile.Pid p)) followers
       ++ [EvStoreClose; EvGosched])
      (follow_all (Profile.Pid p) followers (unfollow_all (Profile.Pid p) followers st))
      (Returned tt).
Proof.
  intros HG HP HF.
  assert (Hd : snd (feedWorker id p) = ProfileItemData.mk p (Some []) (Some err)).
  { unfold feedWorker. rewrite HG, HP. reflexivity. }
  rewrite Hd. unfold pollFeeds_receive. cbn [ProfileItemData.Error ProfileItemData.Profile].
  rewrite (bind_returned _ _ st
             [EvLog "Error processing feed for %s: %v" [AStr (Profile.Pid p); AErr (Some err)]]
             st tt) by reflexivity.
  rewrite (bind_returned _ _ st _ _ _
             (updateProfileItemData_snapshot (ProfileItemData.mk p (Some []) (Some err))
                [] followers st eq_refl HF)).
  cbn [ProfileItemData.Profile trace final outcome ev map add_all fold_left app].
  rewrite <- !app_assoc. reflexivity.
Qed.

Lemma failed_results_leave_store (rs : list ProfileItemData.t) :
  Forall (fun data => ProfileItemData.Items data = None) rs ->
  forall st,
    final (for_range rs pollFeeds_receive st) = st
    /\ unfollows (trace (for_range rs pollFeeds_receive st)) = []
    /\ added (trace (for_range rs pollFeeds_receive st)) = []
    /\ follows (trace (for_range rs pollFeeds_receive st)) = []
    /\ count is_open (trace (for_range rs pollFeeds_receive st)) = 0%nat.
Proof.
  induction 1 as [|data rs HI _ IH]; intros st; cbn [for_range].
  - repeat split.
  - destruct (pollFeeds_receive_run data st) as (format & args & Hr).
    rewrite (updateProfileItemData_nil data st HI) in Hr. cbn [trace final app] in Hr.
    rewrite (bind_returned _ _ _ _ _ _ Hr). cbn [trace final].
    destruct (IH st) as (Hf & Hu & Ha & Hw & Ho).
    unfold unfollows, added, follows in *. rewrite count_app, !flat_map_app, Hu, Ha, Hw, Ho.
    repeat split. exact Hf.
Qed.

(** X7: when the HTTP retrieval fails for every feed-driven profile, a run
    of [pollFeeds] leaves the store as it found it: it opens its own
    connection only, and calls neither [Unfollow] nor [AddItem] nor
    [Follow]. *)
Theorem pollFeeds_all_down (sched : list nat) (st : Store) :
  Forall (fun p => get_err (http_Get (Profile.FeedUrl p)) <> None)
    (fst (store_FeedDrivenProfiles st)) ->
  let r := pollFeeds sched st in
  final r = st
  /\ unfollows (trace r) = []
  /\ added (trace r) = []
  /\ follows (trace r) = []
  /\ count is_open (trace r) = 1%nat
  /\ outcome r = Returned tt.
Proof.
  intros Hdown. cbv zeta. rewrite pollFeeds_run. cbn [trace final outcome].
  set (rs := arrival (fun w p => snd (feedWorker (Z.of_nat w) p)) 3 sched
               (fst (store_FeedDrivenProfiles st))).
  assert (Hnil : Forall (fun data => ProfileItemData.Items data = None) rs).
  { assert (Hp : Permutation rs
               (map (fun p => snd (feedWorker 0 p)) (fst (store_FeedDrivenProfiles st))))
      by (apply arrival_perm; intros w q; apply feedWorker_data).
    apply Forall_forall. intros data Hin.
    apply (Permutation_in _ Hp) in Hin. apply in_map_iff in Hin.
    destruct Hin as (p & <- & Hin).
    rewrite Forall_forall in Hdown. specialize (Hdown p Hin).
    unfold feedWorker. destruct (http_Get (Profile.FeedUrl p)) as [resp|resp err].
    - now elim Hdown.
    - reflexivity. }
  destruct (failed_results_leave_store rs Hnil st) as (Hf & Hu & Ha & Hw & Ho).
  unfold unfollows, added, follows in *.
  rewrite !count_app, !flat_map_app, Hf, Hu, Ha, Hw, Ho.
  repeat split.
Qed.

(** ** The image backfill, whatever the batch *)

Lemma pollImages_loop (rs : list ItemImageData.t) :
  forall st,
    let r := for_range rs pollImages_receive st in
    final r = update_all (map ItemImageData.Item rs) st
    /\ count is_open (trace r) = 0%nat
    /\ count is_close (trace r) = 0%nat
    /\ count is_receive (trace r) = List.length rs
    /\ marks (trace r) = [].
Proof.
  induction rs as [|data rs IH]; intros st; cbv zeta; cbn [for_range].
  - repeat split.
  - destruct (pollImages_receive_run data st) as (format & args & Hrun).
    rewrite (bind_returned _ _ _ _ _ _ Hrun). cbn [trace final map List.length].
    destruct (IH (fst (store_UpdateItem st (ItemImageData.Item data))))
      as (Hf & Ho & Hc & Hg & Hm).
    unfold marks in *. rewrite !count_app, filter_app, Hf, Ho, Hc, Hg, Hm.
    repeat split.
Qed.

Lemma pollImages_run (cfg : Flags) (sched : list nat) (st : Store) :
  let grabbed := store_GrabItemsNeedingImages st 30 in
  let items := fst (snd grabbed) in
  let rs := arrival (fun w item => snd (imageWorker cfg (Z.of_nat w) item)) 3 sched items in
  let loop := for_range rs pollImages_receive (fst grabbed) in
  pollImages cfg sched st
  = mkRun ([EvLog "Fetching images" []; EvNewRedisStore; EvGrabItemsNeedingImages 30;
            EvLog "%d images need to be fetched" [AInt (Z.of_nat (List.length items))]]
           ++ trace loop ++ [EvStoreClose])
      (final loop) (Returned tt).
Proof.
  cbv zeta. unfold pollImages.
  rewrite (bind_returned _ _ st [EvLog "Fetching images" []] st tt) by reflexivity.
  rewrite (bind_returned _ _ st [EvNewRedisStore] st tt) by reflexivity.
  rewrite (bind_returned _ _ st [EvGrabItemsNeedingImages 30]
             (fst (store_GrabItemsNeedingImages st 30))
             (snd (store_GrabItemsNeedingImages st 30))) by reflexivity.
  set (items := fst (snd (store_GrabItemsNeedingImages st 30))).
  set (st1 := fst (store_GrabItemsNeedingImages st 30)).
  rewrite (bind_returned _ _ st1
             [EvLog "%d images need to be fetched" [AInt (Z.of_nat (List.length items))]]
             st1 tt) by reflexivity.
  set (rs := arrival (fun w item => snd (imageWorker cfg (Z.of_nat w) item)) 3 sched items).
  assert (Hloop :
    (if 0 <? Z.of_nat (List.length items) then for_range rs pollImages_receive else ret tt) st1
    = for_range rs pollImages_receive st1).
  { destruct (0 <? Z.of_nat (List.length items)) eqn:Hn; [reflexivity|].
    assert (Hlen : List.length rs = 0%nat).
    { subst rs. rewrite (arrival_length _ (fun item => snd (imageWorker cfg 0 item)))
        by (intros w item; apply imageWorker_data).
      apply Z.ltb_ge in Hn. lia. }
    apply length_zero_iff_nil in Hlen. now rewrite Hlen. }
  rewrite (bind_outcome
             (if 0 <? Z.of_nat (List.length items)
              then for_range rs pollImages_receive else ret tt) _ st1 tt)
    by (rewrite Hloop; apply (proj2 (pollImages_receive_loop rs st1))).
  rewrite Hloop. reflexivity.
Qed.

Lemma pollImages_marks (cfg : Flags) (sched : list nat) (st : Store) :
  marks (trace (pollImages cfg sched st)) = [EvGrabItemsNeedingImages 30]
  /\ outcome (pollImages cfg sched st) = Returned tt.
Proof.
  rewrite pollImages_run. cbn [trace outcome]. split; [|reflexivity].
  unfold marks. rewrite !filter_app.
  destruct (pollImages_loop
              (arrival (fun w item => snd (imageWorker cfg (Z.of_nat w) item)) 3 sched
                 (fst (snd (store_GrabItemsNeedingImages st 30))))
              (fst (store_GrabItemsNeedingImages st 30))) as (_ & _ & _ & _ & Hm).
  unfold marks in Hm. rewrite Hm. reflexivity.
Qed.

Lemma pollImages_loop_run (rs : list ItemImageData.t) :
  forall st,
    for_range rs pollImages_receive st
    = mkRun
        (flat_map
           (fun data =>
              [match ItemImageData.Error data with
               | Some _ =>
                   EvLog "Error processing images for %s: %v"
                     [AStr (Item.Id (ItemImageData.Item data));
                      AErr (ItemImageData.Error data)]
               | None =>
                   EvLog "Found image %s for %s"
                     [AStr (Item.Image (ItemImageData.Item data));
                      AStr (Item.Id (ItemImageData.Item data))]
               end;
               EvUpdateItem (ItemImageData.Item data);
               EvGosched]) rs)
        (update_all (map ItemImageData.Item rs) st) (Returned tt).
Proof.
  induction rs as [|data rs IH]; intros st; cbn [for_range flat_map map].
  - reflexivity.
  - rewrite (bind_returned _ _ st
               [match ItemImageData.Error data with
                | Some _ =>
                    EvLog "Error processing images for %s: %v"
                      [AStr (Item.Id (ItemImageData.Item data));
                       AErr (ItemImageData.Error data)]
                | None =>
                    EvLog "Found image %s for %s"
                      [AStr (Item.Image (ItemImageData.Item data));
                       AStr (Item.Id (ItemImageData.Item data))]
                end;
                EvUpdateItem (ItemImageData.Item data);
                EvGosched]
               (fst (store_UpdateItem st (ItemImageData.Item data))) tt)
      by (unfold pollImages_receive; destruct (ItemImageData.Error data); reflexivity).
    rewrite IH. reflexivity.
Qed.

(** X8: a run of [pollImages] always returns.  Under every schedule of the
    workers the results received are the workers' results for the grabbed
    items, each once, in some order; the calls of the run are the opening
    calls, then for each result received its log line, [UpdateItem] of its
    item and one yield, then the closing of the connection.  The store left
    is the store [GrabItemsNeedingImages] left with the items of the results
    written in the order received. *)
Theorem pollImages_store (cfg : Flags) (sched : list nat) (st : Store) :
  let grabbed := store_GrabItemsNeedingImages st 30 in
  let items := fst (snd grabbed) in
  let line data :=
    match ItemImageData.Error data with
    | Some _ =>
        EvLog "Error processing images for %s: %v"
          [AStr (Item.Id (ItemImageData.Item data)); AErr (ItemImageData.Error data)]
    | None =>
        EvLog "Found image %s for %s"
          [AStr (Item.Image (ItemImageData.Item data));
           AStr (Item.Id (ItemImageData.Item data))]
    end in
  exists rs,
    Permutation rs (map (fun item => snd (imageWorker cfg 0 item)) items)
    /\ pollImages cfg sched st
       = mkRun
           ([EvLog "Fetching images" []; EvNewRedisStore; EvGrabItemsNeedingImages 30;
             EvLog "%d images need to be fetched" [AInt (Z.of_nat (List.length items))]]
            ++ flat_map
                 (fun data => [line data; EvUpdateItem (ItemImageData.Item data); EvGosched])
                 rs
            ++ [EvStoreClose])
           (update_all (map ItemImageData.Item rs) (fst grabbed)) (Returned tt).
Proof.
  cbv zeta.
  exists (arrival (fun w item => snd (imageWorker cfg (Z.of_nat w) item)) 3 sched
            (fst (snd (store_GrabItemsNeedingImages st 30)))).
  split.
  - apply arrival_perm. intros w item. apply imageWorker_data.
  - rewrite pollImages_run. cbv zeta. rewrite pollImages_loop_run. reflexivity.
Qed.

(** X9: when [GrabItemsNeedingImages] returns no item, [pollImages] writes
    nothing: after the grab it logs that 0 images need to be fetched, closes
    its connection and returns, and the store is as the grab left it. *)
Theorem pollImages_nothing_to_fetch (cfg : Flags) (sched : list nat) (st : Store) :
  fst (snd (store_GrabItemsNeedingImages st 30)) = [] ->
  pollImages cfg sched st
  = mkRun [EvLog "Fetching images" []; EvNewRedisStore; EvGrabItemsNeedingImages 30;
           EvLog "%d images need to be fetched" [AInt 0]; EvStoreClose]
      (fst (store_GrabItemsNeedingImages st 30)) (Returned tt).
Proof.
  intros Hnone. unfold pollImages.
  rewrite (bind_returned _ _ st [EvLog "Fetching images" []] st tt) by reflexivity.
  rewrite (bind_returned _ _ st [EvNewRedisStore] st tt) by reflexivity.
  rewrite (bind_returned _ _ st [EvGrabItemsNeedingImages 30]
             (fst (store_GrabItemsNeedingImages st 30))
             (snd (store_GrabItemsNeedingImages st 30))) by reflexivity.
  rewrite Hnone. reflexivity.
Qed.

(** ** The rounds of main *)

Lemma checkEnvironment_usable (cfg : Flags) (st : Store) :
  usable cfg = true ->
  exists f,
    checkEnvironment cfg st
    = mkRun [EvOpen (imgDir cfg); EvStat f; EvFileClose f] st (Returned tt).
Proof.
  unfold usable, checkEnvironment.
  destruct (os_Open (imgDir cfg)) as [f|err]; [|discriminate].
  destruct (File_Stat f) as [fi|err]; [|discriminate].
  intros ->. exists f. reflexivity.
Qed.

Lemma ticker_loop_marks (cfg : Flags) (sched : nat -> list nat) (ticks : nat) :
  forall round st,
    marks (trace (ticker_loop cfg sched round ticks st))
    = List.concat (repeat [EvTicked; EvFeedDrivenProfiles; EvGrabItemsNeedingImages 30] ticks)
    /\ outcome (ticker_loop cfg sched round ticks st) = Waiting.
Proof.
  induction ticks as [|ticks IH]; intros round st; cbn [ticker_loop repeat List.concat].
  - split; reflexivity.
  - rewrite (bind_returned _ _ st [EvTicked] st tt) by reflexivity.
    destruct (pollFeeds_marks (sched round) st) as [Hfm Hfo].
    rewrite (bind_outcome _ _ _ _ Hfo).
    destruct (pollImages_marks cfg (sched (S round)) (final (pollFeeds (sched round) st)))
      as [Him Hio].
    rewrite (bind_outcome _ _ _ _ Hio).
    cbn [trace outcome].
    destruct (IH (S (S round))
                (final (pollImages cfg (sched (S round))
                          (final (pollFeeds (sched round) st))))) as [Hlm Hlo].
    split; [|exact Hlo].
    unfold marks in *. rewrite !filter_app, Hfm, Him, Hlm. reflexivity.
Qed.

(** X10: with a usable image directory and no debug URL, [main] polls the
    feeds, then the images, once at start; in single-shot mode it then
    returns, with exit status 0 and without creating a ticker; otherwise it
    creates one ticker of 30 minutes and, for each tick, polls the feeds and
    then the images again, one round after the other, and never returns. *)
Theorem main_rounds (cfg : Flags) (sched : nat -> list nat) (ticks : nat) (st : Store) :
  feedurl cfg = "" ->
  usable cfg = true ->
  let r := main cfg sched ticks st in
  if runOnce cfg then
    marks (trace r) = [EvFeedDrivenProfiles; EvGrabItemsNeedingImages 30]
    /\ exit_status (outcome r) = Some 0
  else
    marks (trace r)
    = [EvFeedDrivenProfiles; EvGrabItemsNeedingImages 30; EvTick (30 * Minute)]
      ++ List.concat (repeat [EvTicked; EvFeedDrivenProfiles; EvGrabItemsNeedingImages 30] ticks)
    /\ exit_status (outcome r) = None.
Proof.
  intros Hurl Huse. cbv zeta. unfold main. rewrite Hurl. cbn [String.eqb negb].
  destruct (checkEnvironment_usable cfg st Huse) as [f Hc].
  rewrite (bind_returned _ _ _ _ _ _ Hc).
  rewrite (bind_returned _ _ st [EvLog "Image directory: %s" [AStr (imgDir cfg)]] st tt)
    by reflexivity.
  destruct (pollFeeds_marks (sched 0%nat) st) as [Hfm Hfo].
  rewrite (bind_outcome _ _ _ _ Hfo).
  destruct (pollImages_marks cfg (sched 1%nat) (final (pollFeeds (sched 0%nat) st)))
    as [Him Hio].
  rewrite (bind_outcome _ _ _ _ Hio).
  destruct (runOnce cfg); cbn [trace outcome ret].
  - unfold marks in *. rewrite !filter_app, Hfm, Him. split; reflexivity.
  - rewrite (bind_returned _ _ _ [EvTick (30 * Minute)] _ tt) by reflexivity.
    cbn [trace outcome].
    destruct (ticker_loop_marks cfg sched ticks 2
                (final (pollImages cfg (sched 1%nat) (final (pollFeeds (sched 0%nat) st)))))
      as [Hlm Hlo].
    rewrite Hlo. unfold marks in *. rewrite !filter_app, Hfm, Him, Hlm.
    split; reflexivity.
Qed.

(** ** Debug mode *)

Lemma debug_loop (items : list FeedItem.t) :
  forall st,
    for_range items (fun item =>
      print "--Item (%s)\n" [AStr (FeedItem.Id item)] ;;
      print "  Title: %s\n" [AStr (FeedItem.Title item)] ;;
      print "  Link:  %s\n" [AStr (FeedItem.Link item)] ;;
      print "  Image: %s\n" [AStr (FeedItem.Image item)]) st
    = mkRun (flat_map debug_lines items) st (Returned tt).
Proof.
  induction items as [|item items IH]; intros st; cbn [for_range flat_map].
  - reflexivity.
  - rewrite (bind_returned _ _ st (debug_lines item) st tt) by reflexivity.
    rewrite IH. reflexivity.
Qed.

Lemma debug_lines_debug (items : list FeedItem.t) :
  forallb is_debug (flat_map debug_lines items) = true.
Proof. induction items as [|item items IH]; cbn; [reflexivity | exact IH]. Qed.

Lemma debugFeed_parsed_run (url : string) (resp : Response.t) (feed : Feed.t)
    (err : option error) (st : Store) :
  http_Get url = GetOk resp ->
  feedparser_NewFeed (Response.Body resp) = (Some feed, err) ->
  debugFeed url st
  = mkRun
      ([EvLog "Debugging feed %s" [AStr url]; EvHttpGet url;
        EvLog "Response: %s" [AStr (Response.Status resp)];
        EvNewFeed (Response.Body resp)]
       ++ flat_map debug_lines (Feed.Items feed) ++ [EvBodyClose])
      st (Returned tt).
Proof.
  intros HG HP. unfold debugFeed.
  rewrite (bind_returned _ _ st [EvLog "Debugging feed %s" [AStr url]] st tt) by reflexivity.
  rewrite (bind_returned _ _ st [EvHttpGet url] st tt) by reflexivity.
  rewrite HG. cbn [get_resp get_err].
  rewrite (bind_returned _ _ st [EvLog "Response: %s" [AStr (Response.Status resp)]] st tt)
    by reflexivity.
  rewrite (bind_returned _ _ st [EvNewFeed (Response.Body resp)] st tt) by reflexivity.
  rewrite HP.
  rewrite (bind_returned _ _ st _ _ _ (debug_loop (Feed.Items feed) st)).
  reflexivity.
Qed.

Lemma debugFeed_local (url : string) (st : Store) :
  final (debugFeed url st) = st /\ forallb is_debug (trace (debugFeed url st)) = true.
Proof.
  destruct (http_Get url) as [resp|[resp|] gerr] eqn:HG.
  - destruct (feedparser_NewFeed (Response.Body resp)) as [[feed|] perr] eqn:HP.
    + rewrite (debugFeed_parsed_run url resp feed perr st HG HP). cbn [trace final].
      split; [reflexivity|]. cbn [app forallb is_debug andb].
      rewrite forallb_app, debug_lines_debug. reflexivity.
    + unfold debugFeed. rewrite HG. cbn [get_resp get_err]. rewrite HP.
      split; reflexivity.
  - unfold debugFeed. rewrite HG. split; reflexivity.
  - unfold debugFeed. rewrite HG. split; reflexivity.
Qed.

(** X11: with a debug URL, [main] does nothing but [debugFeed]: whatever
    the fetch and the parser answer, it never opens the image directory,
    never touches the store, never polls and never creates a ticker; its
    calls are log lines, printed lines, one HTTP retrieval, at most one parse
    and the closing of the response body. *)
Theorem main_debug_mode (cfg : Flags) (sched : nat -> list nat) (ticks : nat) (st : Store) :
  feedurl cfg <> "" ->
  let r := main cfg sched ticks st in
  r = debugFeed (feedurl cfg) st
  /\ final r = st
  /\ forallb is_debug (trace r) = true.
Proof.
  intros Hurl. cbv zeta.
  assert (Hm : main cfg sched ticks st = debugFeed (feedurl cfg) st).
  { unfold main. apply String.eqb_neq in Hurl. now rewrite Hurl. }
  rewrite Hm. split; [reflexivity|]. apply debugFeed_local.
Qed.

(** X12: when the fetch succeeds and the parser returns a feed, [debugFeed]
    logs the response status and prints, for each item in feed order, its
    id, title, link and image, then closes the response body and returns;
    an error the parser returned beside the feed is neither logged nor
    printed. *)
Theorem debugFeed_prints_items (url : string) (resp : Response.t) (feed : Feed.t)
    (err : option error) (st : Store) :
  http_Get url = GetOk resp ->
  feedparser_NewFeed (Response.Body resp) = (Some feed, err) ->
  debugFeed url st
  = mkRun
      ([EvLog "Debugging feed %s" [AStr url]; EvHttpGet url;
        EvLog "Response: %s" [AStr (Response.Status resp)];
        EvNewFeed (Response.Body resp)]
       ++ flat_map debug_lines (Feed.Items feed) ++ [EvBodyClose])
      st (Returned tt)
  /\ List.length (trace (debugFeed url st)) = (5 + 4 * List.length (Feed.Items feed))%nat.
Proof.
  intros HG HP. rewrite (debugFeed_parsed_run url resp feed err st HG HP).
  split; [reflexivity|]. cbn [trace]. rewrite !length_app.
  assert (Hl : List.length (flat_map debug_lines (Feed.Items feed))
               = (4 * List.length (Feed.Items feed))%nat).
  { induction (Feed.Items feed) as [|item items IH]; cbn [flat_map List.length].
    - reflexivity.
    - rewrite length_app, IH. cbn. lia. }
  rewrite Hl. cbn. lia.
Qed.

(** ** What the two polls write *)

Lemma for_range_same {A X} (g1 g2 : Event -> list X) (body : A -> Prog unit) :
  (forall x st, outcome (body x st) = Returned tt
                /\ flat_map g1 (trace (body x st)) = flat_map g2 (trace (body x st))) ->
  forall l st,
    flat_map g1 (trace (for_range l body st)) = flat_map g2 (trace (for_range l body st)).
Proof.
  intros Hb l. induction l as [|x l IH]; intros st; cbn [for_range].
  - reflexivity.
  - destruct (Hb x st) as [Ho Hs].
    rewrite (bind_outcome _ _ _ _ Ho). cbn [trace].
    now rewrite !flat_map_app, Hs, IH.
Qed.

Lemma for_range_none {A X} (g : Event -> list X) (body : A -> Prog unit) :
  (forall x st, outcome (body x st) = Returned tt
                /\ flat_map g (trace (body x st)) = []) ->
  forall l st, flat_map g (trace (for_range l body st)) = [].
Proof.
  intros Hb l st.
  rewrite (for_range_same g (fun _ => []) body).
  - apply flat_map_none.
  - intros x s. destruct (Hb x s) as [Ho Hn]. split; [exact Ho|].
    now rewrite Hn, flat_map_none.
Qed.

Lemma updateProfileItemData_refollows (data : ProfileItemData.t) (st : Store) :
  unfollows (trace (updateProfileItemData data st))
  = follows (trace (updateProfileItemData data st))
  /\ written (trace (updateProfileItemData data st)) = [].
Proof.
  destruct (updateProfileItemData_cases data st)
    as [[_ Hr]|[(items & err & _ & _ & Hr)|(items & _ & _ & Hr)]];
    rewrite Hr; cbn [trace]; [split; reflexivity .. |].
  unfold unfollows, follows, written.
  rewrite !flat_map_app, !flat_map_map. cbn [flat_map app].
  rewrite !flat_map_single, !flat_map_none, !app_nil_r. split; reflexivity.
Qed.

Lemma pollFeeds_receive_refollows (data : ProfileItemData.t) (st : Store) :
  outcome (pollFeeds_receive data st) = Returned tt
  /\ unfollows (trace (pollFeeds_receive data st))
     = follows (trace (pollFeeds_receive data st))
  /\ written (trace (pollFeeds_receive data st)) = [].
Proof.
  destruct (pollFeeds_receive_run data st) as (format & args & Hr).
  rewrite Hr. cbn [trace outcome]. split; [reflexivity|].
  destruct (updateProfileItemData_refollows data st) as [Hs Hw].
  change (EvLog format args :: trace (updateProfileItemData data st) ++ [EvGosched])
    with ([EvLog format args] ++ trace (updateProfileItemData data st) ++ [EvGosched]).
  unfold unfollows, follows, written in *.
  rewrite !flat_map_app, Hs, Hw. split; reflexivity.
Qed.

(** X14: in every run of [pollFeeds], whatever the feeds, the store and the
    schedule, the [Follow] calls are the [Unfollow] calls, edge for edge and
    in the same order: every follower taken off a profile is put back on it,
    and nobody else is.  [pollFeeds] never calls [UpdateItem]. *)
Theorem pollFeeds_refollows_the_unfollowed (sched : list nat) (st : Store) :
  follows (trace (pollFeeds sched st)) = unfollows (trace (pollFeeds sched st))
  /\ written (trace (pollFeeds sched st)) = [].
Proof.
  rewrite pollFeeds_run. cbn [trace]. unfold follows, unfollows, written.
  rewrite !flat_map_app. cbn [flat_map app]. rewrite !app_nil_r.
  split.
  - symmetry. apply for_range_same.
    intros data s. destruct (pollFeeds_receive_refollows data s) as (Ho & Hs & _).
    split; [exact Ho | exact Hs].
  - apply for_range_none.
    intros data s. destruct (pollFeeds_receive_refollows data s) as (Ho & _ & Hw).
    split; [exact Ho | exact Hw].
Qed.

Lemma pollImages_receive_writes (data : ItemImageData.t) (st : Store) :
  outcome (pollImages_receive data st) = Returned tt
  /\ unfollows (trace (pollImages_receive data st)) = []
  /\ follows (trace (pollImages_receive data st)) = []
  /\ added (trace (pollImages_receive data st)) = [].
Proof.
  destruct (pollImages_receive_run data st) as (format & args & Hr).
  rewrite Hr. repeat split.
Qed.

(** X15: a run of [pollImages] changes the store through
    [GrabItemsNeedingImages] and [UpdateItem] only: it never calls
    [Unfollow], [Follow] or [AddItem], so it cannot reorder followers or
    create entries. *)
Theorem pollImages_only_updates (cfg : Flags) (sched : list nat) (st : Store) :
  unfollows (trace (pollImages cfg sched st)) = []
  /\ follows (trace (pollImages cfg sched st)) = []
  /\ added (trace (pollImages cfg sched st)) = [].
Proof.
  rewrite pollImages_run. cbn [trace]. unfold unfollows, follows, added.
  rewrite !flat_map_app. cbn [flat_map app]. rewrite !app_nil_r.
  repeat split; apply for_range_none; intros data s;
    destruct (pollImages_receive_writes data s) as (Ho & Hu & Hf & Ha);
    (split; [exact Ho|]); assumption.
Qed.

End Fetcher.

Arguments Returned {A} a.
Arguments Panicked {A} msg.
Arguments Exited {A} code.
Arguments Waiting {A}.
Arguments mkRun {Ext A} trace final outcome.
Arguments trace {Ext A} r.
Arguments final {Ext A} r.
Arguments outcome {Ext A} r.

(** * The fetcher on concrete inputs *)

#[local] Existing Instance Demo.ext.

Lemma updateProfileItemData_reorder_witness :
  let st : Store :=
    Demo.mkStore [] [] [("bob", "news"); ("carol", "news"); ("bob", "sport")] [] true in
  let p := Profile.mk "news" "http://feeds.example/news" 2 in
  let entry := Item.mk "8a8bb7cd343aa2ad99b7d762030857a2" "news" 1000 "First"
                 "http://site.example/a1" "" in
  let data := ProfileItemData.mk p (Some [entry]) None in
  ProfileItemData.Items data = Some [entry]
  /\ store_Followers st "news" 2 0 = ([Follower.mk "bob"; Follower.mk "carol"], None)
  /\ trace (updateProfileItemData data st)
     = [EvNewRedisStore; EvFollowers "news" 2 0;
        EvUnfollow "bob" "news"; EvUnfollow "carol" "news";
        EvAddItem "news" (mkTime 1000 0) "First" "http://site.example/a1" ""
          "8a8bb7cd343aa2ad99b7d762030857a2";
        EvFollow "bob" "news"; EvFollow "carol" "news";
        EvStoreClose].
Proof.
  intros st p entry data.
  split; [reflexivity|split; [reflexivity|]].
  exact (proj1 (updateProfileItemData_reorder data [entry]
                  [Follower.mk "bob"; Follower.mk "carol"] st eq_refl eq_refl)).
Defined.

Lemma updateProfileItemData_snapshot_failure_witness :
  let st : Store := Demo.mkStore [] [] [("bob", "news")] [] false in
  let p := Profile.mk "news" "http://feeds.example/news" 1 in
  let entry := Item.mk "8a8bb7cd343aa2ad99b7d762030857a2" "news" 1000 "First"
                 "http://site.example/a1" "" in
  let data := ProfileItemData.mk p (Some [entry]) None in
  ProfileItemData.Items data = Some [entry]
  /\ store_Followers st "news" 1 0 = ([], Some "redis: connection refused")
  /\ updateProfileItemData data st
     = mkRun [EvNewRedisStore; EvFollowers "news" 1 0; EvStoreClose] st
         (Returned (Some "redis: connection refused")).
Proof.
  intros st p entry data.
  split; [reflexivity|split; [reflexivity|]].
  destruct (updateProfileItemData_snapshot_failure data [entry] []
              "redis: connection refused" st eq_refl eq_refl)
    as (Ht & _ & _ & _ & Hf & Ho).
  destruct (updateProfileItemData data st) as [t s o].
  cbn [trace final outcome] in Ht, Hf, Ho. now rewrite Ht, Hf, Ho.
Defined.

Lemma feedWorker_transport_failure_witness :
  let down := Profile.mk "sport" "http://down.example/feed" 0 in
  let news := Profile.mk "news" "http://feeds.example/news" 1 in
  let st : Store := Demo.mkStore [down; news] [] [("bob", "news")] [] true in
  let sched := [0; 1; 1; 0]%nat in
  let failure := ProfileItemData.mk down None (Some "dial tcp: connection refused") in
  http_Get (Profile.FeedUrl down) = GetErr None "dial tcp: connection refused"
  /\ snd (feedWorker 1 down) = failure
  /\ (exists before after,
        Permutation (before ++ failure :: after)
          (map (fun q => snd (feedWorker 0 q)) (fst (store_FeedDrivenProfiles st)))
        /\ pollFeeds sched st
           = mkRun
               ([EvLog "Refreshing feeds" []; EvNewRedisStore; EvFeedDrivenProfiles]
                ++ trace (for_range before pollFeeds_receive st)
                ++ [EvLog "Error processing feed for %s: %v"
                      [AStr "sport"; AErr (Some "dial tcp: connection refused")];
                    EvGosched]
                ++ trace (for_range after pollFeeds_receive
                            (final (for_range before pollFeeds_receive st)))
                ++ [EvStoreClose])
               (final (for_range after pollFeeds_receive
                         (final (for_range before pollFeeds_receive st))))
               (Returned tt))
  /\ added (trace (pollFeeds sched st))
     = ["8a8bb7cd343aa2ad99b7d762030857a2"; "693a9fdd4c2fd0700968fba0d07ff3c0"]
  /\ follows (trace (pollFeeds sched st)) = [("bob", "news")].
Proof.
  intros down news st sched failure.
  assert (HG : http_Get (Profile.FeedUrl down) = GetErr None "dial tcp: connection refused")
    by reflexivity.
  destruct (feedWorker_transport_failure 1 down None "dial tcp: connection refused" HG)
    as (Hw & _ & _ & Hrun & _).
  split; [exact HG|split; [exact (f_equal snd Hw)|split]].
  - exact (Hrun sched st (or_introl eq_refl)).
  - split; vm_compute; reflexivity.
Defined.


Lemma imageWorker_found_witness :
  let cfg := mkFlags "/srv/img" 30 false "" in
  let item := Item.mk "8a8bb7cd343aa2ad99b7d762030857a2" "news" 1000 "First"
                "http://site.example/a1" "" in
  imgpick_PickImage (Item.Link item) = (Some (800, 600), None)
  /\ imageWorker cfg 0 item
     = ([EvLog "Image worker %d processing item %s"
           [AInt 0; AStr "8a8bb7cd343aa2ad99b7d762030857a2"];
         EvPickImage "http://site.example/a1";
         EvCrop (800, 600) 460 160;
         EvOpenFile "/srv/img/8a8bb7cd343aa2ad99b7d762030857a2.png" 65 438;
         EvPngEncode (mkFile "/srv/img/8a8bb7cd343aa2ad99b7d762030857a2.png") (460, 160)],
        ItemImageData.mk
          (Item.mk "8a8bb7cd343aa2ad99b7d762030857a2" "news" 1000 "First"
             "http://site.example/a1" "8a8bb7cd343aa2ad99b7d762030857a2.png")
          None).
Proof.
  intros cfg item. split; [reflexivity|].
  exact (imageWorker_found cfg 0 item (800, 600) eq_refl).
Defined.

Lemma main_checks_environment_witness :
  let cfg := mkFlags "/etc/hostname" 30 false "" in
  let st : Store := Demo.mkStore [] [] [] [] true in
  feedurl cfg = ""
  /\ exit_status (outcome (main cfg (fun _ => []) 0 st)) = Some 2
  /\ forallb is_local (trace (main cfg (fun _ => []) 0 st)) = true.
Proof.
  intros cfg st. split; [reflexivity|].
  destruct (main_checks_environment cfg (fun _ => []) 0 st eq_refl)
    as (Hs & _ & Hl & _).
  split; [exact Hs | exact Hl].
Defined.

(** [feedInterval] is read nowhere. *)
Lemma imageWorker_feedInterval (Ext : Externals) dir n m once url :
  imageWorker (mkFlags dir n once url) = imageWorker (mkFlags dir m once url).
Proof. unfold imageWorker. cbn [imgDir]. reflexivity. Qed.

Lemma pollImages_feedInterval (Ext : Externals) dir n m once url :
  pollImages (mkFlags dir n once url) = pollImages (mkFlags dir m once url).
Proof. unfold pollImages. now rewrite (imageWorker_feedInterval Ext dir n m). Qed.

Lemma checkEnvironment_feedInterval (Ext : Externals) dir n m once url :
  checkEnvironment (mkFlags dir n once url) = checkEnvironment (mkFlags dir m once url).
Proof. unfold checkEnvironment. cbn [imgDir]. reflexivity. Qed.

Lemma ticker_loop_feedInterval (Ext : Externals) dir n m once url sched ticks :
  forall round,
    ticker_loop (mkFlags dir n once url) sched round ticks
    = ticker_loop (mkFlags dir m once url) sched round ticks.
Proof.
  induction ticks as [|ticks IH]; intros round; cbn [ticker_loop].
  - reflexivity.
  - now rewrite IH, (pollImages_feedInterval Ext dir n m).
Qed.

(** C8: the value of the feed interval flag never reaches the ticker.
    [main] runs the same whatever [feedInterval] holds, and with
    [--feedinterval 5] the ticker is created with a period of 30 minutes,
    not 5. *)
Theorem main_ticks_every_30_minutes :
  (forall (Ext : Externals) dir n once url sched ticks st,
      main (mkFlags dir n once url) sched ticks st
      = main (mkFlags dir 30 once url) sched ticks st)
  /\ let cfg := mkFlags "/srv/img" 5 false "" in
     let st : Store := Demo.mkStore [] [] [] [] true in
     tick_periods (trace (main cfg (fun _ => []) 2 st)) = [30 * Minute]
     /\ outcome (main cfg (fun _ => []) 2 st) = Waiting
     /\ 30 * Minute <> feedInterval cfg * Minute.
Proof.
  split.
  - intros Ext dir n once url sched ticks st. unfold main.
    cbn [feedurl imgDir runOnce].
    now rewrite (checkEnvironment_feedInterval Ext dir n 30),
      (pollImages_feedInterval Ext dir n 30),
      (ticker_loop_feedInterval Ext dir n 30).
  - cbv zeta. split; [|split].
    + vm_compute. reflexivity.
    + vm_compute. reflexivity.
    + vm_compute. discriminate.
Qed.

(** C10: [debugFeed] reads [resp.Status] before it looks at the error of
    [http.Get], and ranges over [feed.Items] without looking at the feed.
    For a URL whose fetch fails with no response, and for a URL whose body
    the parser cannot read, the routine panics on a nil pointer instead of
    returning; in the first case the error is never logged. *)
Theorem debugFeed_panics :
  let st : Store := Demo.mkStore [] [] [] [] true in
  http_Get "http://down.example/feed" = GetErr None "dial tcp: connection refused"
  /\ debugFeed "http://down.example/feed" st
     = mkRun [EvLog "Debugging feed %s" [AStr "http://down.example/feed"];
              EvHttpGet "http://down.example/feed"]
         st (Panicked nil_dereference)
  /\ feedparser_NewFeed "junk" = (None, Some "no feed found")
  /\ outcome (debugFeed "http://feeds.example/junk" st) = Panicked nil_dereference
  /\ exit_status (outcome (main (mkFlags "/srv/img" 30 false "http://down.example/feed")
                             (fun _ => []) 0 st)) = Some 2.
Proof.
  cbv zeta. repeat split.
Qed.

(** * The further properties on concrete inputs *)

Lemma arrival_is_a_run_witness :
  let work := fun (w : nat) (j : string) => (w, j) in
  let jobs := ["a"; "b"; "c"; "d"; "e"] in
  let sched := [0; 1; 2; 1; 0; 0]%nat in
  let p := fold_left (move work) sched (start 3 jobs) in
  (0 < 3)%nat
  /\ queue (fold_left (move work) (sched ++ completion p) (start 3 jobs)) = []
  /\ results (fold_left (move work) (sched ++ completion p) (start 3 jobs))
     = [(1%nat, "b"); (0%nat, "a"); (0%nat, "d"); (2%nat, "c"); (0%nat, "e")].
Proof.
  intros work jobs sched p.
  assert (H3 : (0 < 3)%nat) by lia.
  split; [exact H3|].
  destruct (arrival_is_a_run work 3 sched jobs H3) as (Hq & _ & Hr).
  split; [exact Hq | exact Hr].
Defined.

Lemma parse_failure_still_reorders_witness :
  let st : Store := Demo.mkStore [] [] [("bob", "news"); ("carol", "sport")] [] true in
  let p := Profile.mk "news" "http://feeds.example/junk" 5 in
  http_Get (Profile.FeedUrl p) = GetOk (Response.mk "200 OK" "junk")
  /\ feedparser_NewFeed "junk" = (None, Some "no feed found")
  /\ store_Followers st "news" 5 0 = ([Follower.mk "bob"], None)
  /\ trace (pollFeeds_receive (snd (feedWorker 0 p)) st)
     = [EvLog "Error processing feed for %s: %v" [AStr "news"; AErr (Some "no feed found")];
        EvNewRedisStore; EvFollowers "news" 5 0;
        EvUnfollow "bob" "news"; EvFollow "bob" "news";
        EvStoreClose; EvGosched].
Proof.
  intros st p.
  split; [reflexivity|split; [reflexivity|split; [reflexivity|]]].
  exact (f_equal trace
           (parse_failure_still_reorders 0 p (Response.mk "200 OK" "junk") "no feed found"
              [Follower.mk "bob"] st eq_refl eq_refl eq_refl)).
Defined.

Lemma pollFeeds_all_down_witness :
  let down := Profile.mk "news" "http://down.example/feed" 1 in
  let st : Store := Demo.mkStore [down] [] [("bob", "news")] [] true in
  Forall (fun p => get_err (http_Get (Profile.FeedUrl p)) <> None)
    (fst (store_FeedDrivenProfiles st))
  /\ final (pollFeeds [0; 0]%nat st) = st
  /\ added (trace (pollFeeds [0; 0]%nat st)) = [].
Proof.
  intros down st.
  assert (H : Forall (fun p => get_err (http_Get (Profile.FeedUrl p)) <> None)
                (fst (store_FeedDrivenProfiles st))).
  { constructor; [discriminate | constructor]. }
  split; [exact H|].
  destruct (pollFeeds_all_down [0; 0]%nat st H) as (Hf & _ & Ha & _).
  split; [exact Hf | exact Ha].
Defined.

Lemma pollImages_nothing_to_fetch_witness :
  let cfg := mkFlags "/srv/img" 30 false "" in
  let st : Store := Demo.mkStore [] [] [] [] true in
  fst (snd (store_GrabItemsNeedingImages st 30)) = []
  /\ trace (pollImages cfg [] st)
     = [EvLog "Fetching images" []; EvNewRedisStore; EvGrabItemsNeedingImages 30;
        EvLog "%d images need to be fetched" [AInt 0]; EvStoreClose].
Proof.
  intros cfg st. split; [reflexivity|].
  exact (f_equal trace (pollImages_nothing_to_fetch cfg [] st eq_refl)).
Defined.

Lemma main_rounds_witness :
  let cfg := mkFlags "/srv/img" 30 true "" in
  let st : Store := Demo.mkStore [] [] [] [] true in
  feedurl cfg = ""
  /\ usable cfg = true
  /\ marks (trace (main cfg (fun _ => []) 3 st))
     = [EvFeedDrivenProfiles; EvGrabItemsNeedingImages 30]
  /\ exit_status (outcome (main cfg (fun _ => []) 3 st)) = Some 0.
Proof.
  intros cfg st. split; [reflexivity|split; [reflexivity|]].
  exact (main_rounds cfg (fun _ => []) 3 st eq_refl eq_refl).
Defined.

Lemma main_debug_mode_witness :
  let cfg := mkFlags "/srv/img" 30 false "http://feeds.example/news" in
  let st : Store := Demo.mkStore [] [] [("bob", "news")] [] true in
  feedurl cfg <> ""
  /\ final (main cfg (fun _ => []) 1 st) = st.
Proof.
  intros cfg st.
  assert (H : feedurl cfg <> "") by discriminate.
  split; [exact H|].
  exact (proj1 (proj2 (main_debug_mode cfg (fun _ => []) 1 st H))).
Defined.

Lemma debugFeed_prints_items_witness :
  let st : Store := Demo.mkStore [] [] [] [] true in
  http_Get "http://feeds.example/news" = GetOk (Response.mk "200 OK" "<rss>a1 a2</rss>")
  /\ feedparser_NewFeed "<rss>a1 a2</rss>" = (Some (Feed.mk [Demo.a1; Demo.a2]), None)
  /\ List.length (trace (debugFeed "http://feeds.example/news" st)) = 13%nat.
Proof.
  intros st. split; [reflexivity|split; [reflexivity|]].
  exact (proj2 (debugFeed_prints_items "http://feeds.example/news"
                  (Response.mk "200 OK" "<rss>a1 a2</rss>") (Feed.mk [Demo.a1; Demo.a2])
                  None st eq_refl eq_refl)).
Defined.
